(** * Dual-write REST handlers of the host-inventory and RBAC mock services

    A shallow embedding of [services/insights-host-inventory/app.py] and
    [services/insights-rbac/app.py].  Python values that travel through the
    handlers are a small inductive type; a table is the list of its rows and a
    row is a dictionary from column name to value; the handlers run in a
    reader/state/exception monad whose state holds the committed database, the
    clock and the trace of calls made to the outside (database driver, logger,
    HTTP client), in program order. *)

From Stdlib Require Import ZArith String.
From stdpp Require Import gmap strings list sorting.

Set Warnings "-register-all".

Open Scope Z_scope.
Open Scope string_scope.

(** ** Python values *)

Module Py.

(** What [request.get_json()] can return, plus [datetime] objects.  JSON
    numbers are integers here. *)
Inductive value : Type :=
  | VNone
  | VBool (b : bool)
  | VInt (n : Z)
  | VStr (s : string)
  | VList (l : list value)
  | VDict (d : gmap string value)
  | VDatetime (t : Z).

(** [bool(v)]: what [if not v] tests. *)
Definition truthy (v : value) : bool :=
  match v with
  | VNone => false
  | VBool b => b
  | VInt n => negb (Z.eqb n 0)
  | VStr s => negb (String.eqb s "")
  | VList l => match l with [] => false | _ => true end
  | VDict d => negb (bool_decide (d = ∅))
  | VDatetime _ => true
  end.

(** [a or b] *)
Definition py_or (a b : value) : value := if truthy a then a else b.

(** Exception classes the handlers distinguish: the inner handler of
    [create_host] and [delete_host] catches [requests.exceptions.RequestException]
    (which covers [ConnectionError] and [Timeout]); every other class
    reaches the outer [except Exception]. *)
Inductive exn_class : Type :=
  | AttributeError
  | TypeError
  | KeyError
  | DatabaseError
  | RequestException
  | OtherException.

Record exn : Type := Exn { cls : exn_class; msg : string }.

Definition is_request_exception (e : exn) : bool :=
  match cls e with RequestException => true | _ => false end.

(** Is [pat] a substring of [s] ([pat in s] on two strings). *)
Fixpoint substring_of (pat s : string) : bool :=
  String.prefix pat s ||
  match s with
  | EmptyString => false
  | String _ s' => substring_of pat s'
  end.

Definition str_elem (k : string) (v : value) : bool :=
  match v with VStr s => String.eqb s k | _ => false end.

(** [k in data] for a string [k]: key membership on a dict, element
    membership on a list, substring test on a string, [TypeError] on the rest. *)
Definition contains (k : string) (data : value) : exn + bool :=
  match data with
  | VDict d => inr (bool_decide (is_Some (d !! k)))
  | VList l => inr (existsb (str_elem k) l)
  | VStr s => inr (substring_of k s)
  | _ => inl (Exn TypeError "argument is not iterable")
  end.

(** [data.get(k, default)]: only dicts have the method. *)
Definition get (data : value) (k : string) (default : value) : exn + value :=
  match data with
  | VDict d => inr (match d !! k with Some v => v | None => default end)
  | _ => inl (Exn AttributeError "object has no attribute 'get'")
  end.

(** [data[k]] for a string [k]. *)
Definition getitem (data : value) (k : string) : exn + value :=
  match data with
  | VDict d => match d !! k with
               | Some v => inr v
               | None => inl (Exn KeyError k)
               end
  | _ => inl (Exn TypeError "indices must be integers")
  end.

End Py.

Export Py.

(** ** The relational store and the outside world *)

Module Db.

(** A row as [RealDictCursor] hands it out: column name to value. *)
Abbreviation row := (gmap string value).

(** A database: qualified table name to the rows of the table, in
    insertion order.  No key constraint is assumed; a constraint the real
    schema enforces shows up as [execute] raising. *)
Abbreviation database := (gmap string (list row)).

Definition table (db : database) (t : string) : list row :=
  default [] (db !! t).

(** [WHERE id = %s] *)
Definition id_matches (id : string) (r : row) : bool :=
  match r !! "id" with
  | Some (VStr s) => String.eqb s id
  | _ => false
  end.

(** [SET c1 = v1, c2 = v2, ...], also the column list of an [INSERT]. *)
Definition assign (sets : list (string * value)) (r : row) : row :=
  foldl (fun acc cv => <[cv.1 := cv.2]> acc) r sets.

(** The three statement shapes the handlers issue. *)
Inductive stmt : Type :=
  | Insert (tbl : string) (cols : list (string * value))
  | Update (tbl : string) (sets : list (string * value)) (id : string)
  | Delete (tbl : string) (id : string).

(** What the handlers read back from a cursor. *)
Record cursor : Type := Cursor { rowcount : nat; rows : list row }.

(** One statement on the working copy of a transaction.  [defaults t] is
    the row of column defaults of table [t] (the [CREATE TABLE] scripts are
    not part of the services): an [INSERT] fills the columns it names over
    it and [RETURNING *] gives the whole row back. *)
Definition run_stmt (defaults : string -> row) (s : stmt) (db : database)
  : database * cursor :=
  match s with
  | Insert t cols =>
      let r := assign cols (defaults t) in
      (<[t := (table db t ++ [r])%list]> db, Cursor 1 [r])
  | Update t sets id =>
      let hit := List.filter (id_matches id) (table db t) in
      (<[t := List.map (fun r => if id_matches id r then assign sets r else r)
                       (table db t)]> db,
       Cursor (length hit) (List.map (assign sets) hit))
  | Delete t id =>
      let hit := List.filter (id_matches id) (table db t) in
      (<[t := List.filter (fun r => negb (id_matches id r)) (table db t)]> db,
       Cursor (length hit) [])
  end.

End Db.

Export Db.

Module World.

Inductive level : Type := Info | Warning | Error.

Inductive http_method : Type := POST | DELETE.

Record http_response : Type :=
  HttpResponse { status_code : Z; text : string }.

(** Calls that leave the process, in the order they return.  A database
    call is recorded when it returns normally; an HTTP call is recorded with
    what it returned or raised, since the handler blocks on it. *)
Inductive event : Type :=
  | EvConnect
  | EvExecute (s : stmt)
  | EvCommit
  | EvCursorClose
  | EvConnClose
  | EvLog (lvl : level) (template : string) (args : list value)
  | EvHttp (m : http_method) (url : string) (json : option value)
           (timeout : Z) (res : exn + http_response).

(** Everything a request does not control. *)
Record env : Type := Env {
  getenv : string -> option string;       (* os.environ *)
  fresh_uuid : string;                    (* str(uuid.uuid4()) *)
  clock : nat -> Z;                       (* successive datetime.now() *)
  column_defaults : string -> row;        (* schema defaults per table *)
  connect_exn : option exn;               (* psycopg2.connect raises *)
  execute_exn : option exn;               (* cur.execute raises *)
  commit_exn : option exn;                (* conn.commit raises *)
  cur_close_exn : option exn;             (* cur.close raises *)
  conn_close_exn : option exn;            (* conn.close raises *)
  remote : exn + http_response            (* outcome of the HTTP call *)
}.

Record world : Type := World {
  store : database;        (* committed rows *)
  ticks : nat;             (* clock readings taken so far *)
  trace : list event
}.

(** A connection carries the working copy of its open transaction. *)
Record connection : Type := Connection { working : database }.

Definition M (A : Type) : Type := env -> world -> (exn + A) * world.

Definition ret {A} (a : A) : M A := fun _ w => (inr a, w).

Definition raise {A} (x : exn) : M A := fun _ w => (inl x, w).

Definition bind {A B} (m : M A) (k : A -> M B) : M B :=
  fun e w =>
    match m e w with
    | (inr a, w') => k a e w'
    | (inl x, w') => (inl x, w')
    end.

(** [try: body except <classes in catch> as x: handler x] *)
Definition try_except {A} (body : M A) (catch : exn -> bool)
    (handler : exn -> M A) : M A :=
  fun e w =>
    match body e w with
    | (inl x, w') => if catch x then handler x e w' else (inl x, w')
    | r => r
    end.

Definition lift {A} (r : exn + A) : M A :=
  match r with inl x => raise x | inr a => ret a end.

Definition ask : M env := fun e w => (inr e, w).

Definition emit (ev : event) : M unit :=
  fun _ w => (inr tt, World (store w) (ticks w) (trace w ++ [ev])%list).

Definition guard_exn (o : option exn) : M unit :=
  match o with Some x => raise x | None => ret tt end.

End World.

Export World.

Declare Scope py_scope.
Delimit Scope py_scope with py.
Notation "'do' x <- m ; k" := (bind m (fun x => k))
  (at level 10, x name, m at level 100, k at level 200) : py_scope.
Notation "'do' ' p <- m ; k" := (bind m (fun x => match x with p => k end))
  (at level 10, p pattern, m at level 100, k at level 200) : py_scope.
Notation "'run' m ; k" := (bind m (fun _ => k))
  (at level 10, m at level 100, k at level 200) : py_scope.
Open Scope py_scope.

(** ** Library calls *)

Module Lib.

(** [os.getenv(k, default)] *)
Definition os_getenv (k dflt : string) : M string :=
  do e <- ask; ret (default dflt (getenv e k)).

(** [str(uuid.uuid4())] *)
Definition uuid4 : M string := do e <- ask; ret (fresh_uuid e).

(** [datetime.now()] *)
Definition datetime_now : M value :=
  fun e w => (inr (VDatetime (clock e (ticks w))),
              World (store w) (S (ticks w)) (trace w)).

(** [psycopg2.connect] with [DB_CONFIG]: a transaction starts on the
    committed rows. *)
Definition get_db_connection : M connection :=
  do e <- ask;
  run guard_exn (connect_exn e);
  run emit EvConnect;
  fun _ w => (inr (Connection (store w)), w).

(** [cur.execute(...)]: on an exception the transaction keeps nothing of
    the statement.  Whether it raises is up to the environment, which stands
    for the server refusing the statement as well as for the driver refusing
    a parameter. *)
Definition execute (conn : connection) (s : stmt) : M (connection * cursor) :=
  do e <- ask;
  run guard_exn (execute_exn e);
  run emit (EvExecute s);
  let r := run_stmt (column_defaults e) s (working conn) in
  ret (Connection r.1, r.2).

(** [dict(cur.fetchone())] *)
Definition fetchone (cur : cursor) : M row :=
  match rows cur with
  | r :: _ => ret r
  | [] => raise (Exn TypeError "'NoneType' object is not iterable")
  end.

(** [conn.commit()]: the working copy becomes the committed rows.  An
    exception is taken to mean that nothing was committed; a commit whose
    acknowledgement is lost is not modelled. *)
Definition commit (conn : connection) : M unit :=
  do e <- ask;
  run guard_exn (commit_exn e);
  run (fun _ w => (inr tt, World (working conn) (ticks w) (trace w)));
  emit EvCommit.

Definition cur_close : M unit :=
  do e <- ask; run guard_exn (cur_close_exn e); emit EvCursorClose.

Definition conn_close : M unit :=
  do e <- ask; run guard_exn (conn_close_exn e); emit EvConnClose.

(** [app.logger.<lvl>(f"...")]: the f-string is kept as its literal
    template and the values spliced into it. *)
Definition log (lvl : level) (template : string) (args : list value) : M unit :=
  emit (EvLog lvl template args).

(** [requests.post(url, json=..., timeout=...)] and
    [requests.delete(url, timeout=...)]: the call blocks until the remote
    answers, the transport fails or the timeout expires. *)
Definition requests_call (m : http_method) (url : string)
    (json : option value) (timeout : Z) : M http_response :=
  do e <- ask;
  run emit (EvHttp m url json timeout (remote e));
  lift (remote e).

End Lib.

Export Lib.

(** A Flask response: [jsonify(body), status], or [('', 204)]. *)
Record response : Type := Response { body : value; status : Z }.

Definition jsonify (d : row) (st : Z) : response := Response (VDict d) st.

Definition error_body (m : string) : row := {[ "error" := VStr m ]}.

Definition any_exception (_ : exn) : bool := true.

(** ** Reading rows *)

Module Select.

(** The timestamp [ORDER BY created_at] compares; [None] stands for a
    row whose column is NULL (or holds no timestamp). *)
Definition created_at (r : row) : option Z :=
  match r !! "created_at" with
  | Some (VDatetime t) => Some t
  | _ => None
  end.

(** [r1] may stand before [r2] under [ORDER BY created_at DESC]: later
    timestamps first, NULLs before everything (the default of DESC). *)
Definition newest_first (r1 r2 : row) : Prop :=
  match created_at r1, created_at r2 with
  | None, _ => True
  | Some _, None => False
  | Some t1, Some t2 => (t2 <= t1)%Z
  end.

#[global] Instance newest_first_dec : RelDecision newest_first.
Proof.
  intros r1 r2. unfold newest_first.
  destruct (created_at r1), (created_at r2); apply _.
Defined.

(** [WHERE col = %s] with a string parameter. *)
Definition column_is (col v : string) (r : row) : bool :=
  match r !! col with
  | Some (VStr s) => String.eqb s v
  | _ => false
  end.

(** The [SELECT] shapes of the handlers. *)
Inductive query : Type :=
  | SelectAll (tbl : string)            (* ... ORDER BY created_at DESC *)
  | SelectWhere (tbl col v : string)    (* WHERE col = v ORDER BY created_at DESC *)
  | SelectById (tbl id : string).       (* WHERE id = %s, no ORDER BY *)

(** The rows a query returns.  SQL leaves the order of rows with equal
    timestamps open, and the order of an unordered query too; here the sort
    is the merge sort of the rows in table order and an unordered query
    keeps table order. *)
Definition run_query (q : query) (db : database) : list row :=
  match q with
  | SelectAll t => merge_sort newest_first (table db t)
  | SelectWhere t col v =>
      merge_sort newest_first (List.filter (column_is col v) (table db t))
  | SelectById t id => List.filter (id_matches id) (table db t)
  end.

(** [cur.execute] of a [SELECT]: it can raise like any statement; it
    changes no row and is not written to the trace. *)
Definition execute_select (conn : connection) (q : query) : M cursor :=
  do e <- ask;
  run guard_exn (execute_exn e);
  let rs := run_query q (working conn) in
  ret (Cursor (length rs) rs).

(** [cur.fetchall()] *)
Definition fetchall (cur : cursor) : M (list row) := ret (rows cur).

(** [cur.fetchone()], [None] when there is no row. *)
Definition fetchone_or_none (cur : cursor) : M (option row) :=
  ret (head (rows cur)).

(** [request.args.get(k)] as a Python value. *)
Definition arg_value (a : option string) : value :=
  match a with Some s => VStr s | None => VNone end.

(** The body of the list endpoints. *)
Definition listing (rs : list row) : row :=
  <["data" := VList (VDict <$> rs)]>
  {[ "count" := VInt (Z.of_nat (length rs)) ]}.

End Select.

Export Select.

(** ** services/insights-host-inventory/app.py *)

Module HostInventory.

Definition hosts_table : string := "inventory.hosts".
Definition host_groups_table : string := "inventory.host_groups".

(** [KESSEL_INVENTORY_URL] *)
Definition KESSEL_INVENTORY_URL : M string :=
  os_getenv "KESSEL_INVENTORY_API_URL" "http://kessel-inventory-api:8000".

Definition default_workspace : string :=
  "00000000-0000-0000-0000-000000000001".

(** The body [create_host] posts to the inventory API. *)
Definition kessel_resource (host_id : string)
    (workspace_id display_name canonical_facts : value) : row :=
  <["resource_type" := VStr "hbi/host"]>
  (<["resource_id" := VStr host_id]>
  (<["workspace_id" := py_or workspace_id (VStr default_workspace)]>
  (<["metadata" := VDict (<["display_name" := display_name]>
                          (<["canonical_facts" := canonical_facts]> ∅))]>
   ∅))).

(** Step 2 of [create_host]: the inner [try] around [requests.post]. *)
Definition report_to_kessel (host_id : string)
    (workspace_id display_name canonical_facts : value) : M unit :=
  try_except
    (do base <- KESSEL_INVENTORY_URL;
     do kessel_response <-
       requests_call POST (base ++ "/api/inventory/v1beta2/resources")
         (Some (VDict (kessel_resource host_id workspace_id display_name
                                       canonical_facts)))
         5;
     if (status_code kessel_response =? 200)%Z
        || (status_code kessel_response =? 201)%Z
     then log Info "Successfully reported host to Kessel: {}" [VStr host_id]
     else log Warning "Kessel API returned {}: {}"
            [VInt (status_code kessel_response); VStr (text kessel_response)])
    is_request_exception
    (fun e => log Warning "Failed to report to Kessel API (will sync via CDC): {}"
                [VStr (msg e)]).

(** [POST /api/v1/hosts]; [data] is [request.get_json()]. *)
Definition create_host (data : value) : M response :=
  try_except
    (do host_id <- uuid4;
     do display_name <- lift (get data "display_name" VNone);
     do canonical_facts <- lift (get data "canonical_facts" (VDict ∅));
     do workspace_id <- lift (get data "workspace_id" VNone);
     if negb (truthy display_name)
     then ret (jsonify (error_body "display_name is required") 400)
     else
       do conn <- get_db_connection;
       do created_at <- datetime_now;
       do updated_at <- datetime_now;
       do '(conn, cur) <-
         execute conn
           (Insert hosts_table
              [("id", VStr host_id); ("canonical_facts", canonical_facts);
               ("display_name", display_name); ("workspace_id", workspace_id);
               ("created_at", created_at); ("updated_at", updated_at)]);
       do host <- fetchone cur;
       run commit conn;
       run cur_close;
       run conn_close;
       run log Info "Created host in database: {} - {}"
             [VStr host_id; display_name];
       run report_to_kessel host_id workspace_id display_name canonical_facts;
       ret (jsonify host 201))
    any_exception
    (fun e =>
       run log Error "Error creating host: {}" [VStr (msg e)];
       ret (jsonify (error_body (msg e)) 500)).

(** The [updates]/[values] lists of [update_host], kept in step as
    column/value pairs. *)
Definition collect_update (data : value) (k : string)
    (acc : list (string * value)) : M (list (string * value)) :=
  do present <- lift (contains k data);
  if (present : bool)
  then do v <- lift (getitem data k); ret (acc ++ [(k, v)])%list
  else ret acc.

(** [PATCH /api/v1/hosts/<host_id>] *)
Definition update_host (host_id : string) (data : value) : M response :=
  try_except
    (do conn <- get_db_connection;
     do updates <- collect_update data "display_name" [];
     do updates <- collect_update data "canonical_facts" updates;
     match updates with
     | [] => ret (jsonify (error_body "No fields to update") 400)
     | _ =>
       do now <- datetime_now;
       do '(conn, cur) <-
         execute conn
           (Update hosts_table (updates ++ [("updated_at", now)])%list host_id);
       if (rowcount cur =? 0)%nat
       then ret (jsonify (error_body "Host not found") 404)
       else
         do host <- fetchone cur;
         run commit conn;
         run cur_close;
         run conn_close;
         run log Info "Updated host: {}" [VStr host_id];
         ret (jsonify host 200)
     end)
    any_exception
    (fun e =>
       run log Error "Error updating host: {}" [VStr (msg e)];
       ret (jsonify (error_body (msg e)) 500)).

(** The inner [try] of [delete_host] around [requests.delete]; the
    response is not looked at. *)
Definition delete_from_kessel (host_id : string) : M unit :=
  try_except
    (do base <- KESSEL_INVENTORY_URL;
     do _ <- requests_call DELETE
               (base ++ "/api/inventory/v1/resources/hbi/host/" ++ host_id)
               None 5;
     ret tt)
    is_request_exception
    (fun e => log Warning "Failed to delete from Kessel API: {}" [VStr (msg e)]).

(** [DELETE /api/v1/hosts/<host_id>] *)
Definition delete_host (host_id : string) : M response :=
  try_except
    (do conn <- get_db_connection;
     do '(conn, cur) <- execute conn (Delete hosts_table host_id);
     if (rowcount cur =? 0)%nat
     then ret (jsonify (error_body "Host not found") 404)
     else
       run commit conn;
       run cur_close;
       run conn_close;
       run log Info "Deleted host: {}" [VStr host_id];
       run delete_from_kessel host_id;
       ret (Response (VStr "") 204))
    any_exception
    (fun e =>
       run log Error "Error deleting host: {}" [VStr (msg e)];
       ret (jsonify (error_body (msg e)) 500)).

(** [POST /api/v1/host-groups] *)
Definition create_host_group (data : value) : M response :=
  try_except
    (do group_id <- uuid4;
     do name <- lift (get data "name" VNone);
     do workspace_id <- lift (get data "workspace_id" VNone);
     if negb (truthy name)
     then ret (jsonify (error_body "name is required") 400)
     else
       do conn <- get_db_connection;
       do created_at <- datetime_now;
       do '(conn, cur) <-
         execute conn
           (Insert host_groups_table
              [("id", VStr group_id); ("name", name);
               ("workspace_id", workspace_id); ("created_at", created_at)]);
       do group <- fetchone cur;
       run commit conn;
       run cur_close;
       run conn_close;
       run log Info "Created host group: {} - {}" [VStr group_id; name];
       ret (jsonify group 201))
    any_exception
    (fun e =>
       run log Error "Error creating host group: {}" [VStr (msg e)];
       ret (jsonify (error_body (msg e)) 500)).

(** [GET /health] and [GET /healthz] *)
Definition health : M response :=
  try_except
    (do conn <- get_db_connection;
     run conn_close;
     ret (jsonify {[ "status" := VStr "healthy" ]} 200))
    any_exception
    (fun e =>
       ret (jsonify (<["status" := VStr "unhealthy"]> (error_body (msg e)))
                    503)).

(** [GET /api/v1/hosts]; [workspace_id] is
    [request.args.get('workspace_id')]. *)
Definition list_hosts (workspace_id : option string) : M response :=
  try_except
    (do conn <- get_db_connection;
     do cur <-
       (if truthy (arg_value workspace_id)
        then execute_select conn
               (SelectWhere hosts_table "workspace_id"
                            (default "" workspace_id))
        else execute_select conn (SelectAll hosts_table));
     do hosts <- fetchall cur;
     run cur_close;
     run conn_close;
     ret (jsonify (listing hosts) 200))
    any_exception
    (fun e => ret (jsonify (error_body (msg e)) 500)).

(** [GET /api/v1/hosts/<host_id>] *)
Definition get_host (host_id : string) : M response :=
  try_except
    (do conn <- get_db_connection;
     do cur <- execute_select conn (SelectById hosts_table host_id);
     do host <- fetchone_or_none cur;
     run cur_close;
     run conn_close;
     match host with
     | Some h =>
         if truthy (VDict h) then ret (jsonify h 200)
         else ret (jsonify (error_body "Host not found") 404)
     | None => ret (jsonify (error_body "Host not found") 404)
     end)
    any_exception
    (fun e => ret (jsonify (error_body (msg e)) 500)).

(** [GET /api/v1/host-groups] *)
Definition list_host_groups : M response :=
  try_except
    (do conn <- get_db_connection;
     do cur <- execute_select conn (SelectAll host_groups_table);
     do groups <- fetchall cur;
     run cur_close;
     run conn_close;
     ret (jsonify (listing groups) 200))
    any_exception
    (fun e => ret (jsonify (error_body (msg e)) 500)).

End HostInventory.

(** ** services/insights-rbac/app.py *)

Module Rbac.

Definition workspaces_table : string := "rbac.workspaces".
Definition roles_table : string := "rbac.roles".

(** [POST /api/v1/workspaces] *)
Definition create_workspace (data : value) : M response :=
  try_except
    (do workspace_id <- uuid4;
     do name <- lift (get data "name" VNone);
     do description <- lift (get data "description" (VStr ""));
     if negb (truthy name)
     then ret (jsonify (error_body "name is required") 400)
     else
       do conn <- get_db_connection;
       do created_at <- datetime_now;
       do updated_at <- datetime_now;
       do '(conn, cur) <-
         execute conn
           (Insert workspaces_table
              [("id", VStr workspace_id); ("name", name);
               ("description", description);
               ("created_at", created_at); ("updated_at", updated_at)]);
       do workspace <- fetchone cur;
       run commit conn;
       run cur_close;
       run conn_close;
       run log Info "Created workspace: {} - {}" [VStr workspace_id; name];
       run log Info "CDC will propagate this to Kessel via Kafka" [];
       ret (jsonify workspace 201))
    any_exception
    (fun e =>
       run log Error "Error creating workspace: {}" [VStr (msg e)];
       ret (jsonify (error_body (msg e)) 500)).

(** [DELETE /api/v1/workspaces/<workspace_id>] *)
Definition delete_workspace (workspace_id : string) : M response :=
  try_except
    (do conn <- get_db_connection;
     do '(conn, cur) <- execute conn (Delete workspaces_table workspace_id);
     if (rowcount cur =? 0)%nat
     then ret (jsonify (error_body "Workspace not found") 404)
     else
       run commit conn;
       run cur_close;
       run conn_close;
       run log Info "Deleted workspace: {}" [VStr workspace_id];
       run log Info "CDC will propagate DELETE to Kessel via Kafka" [];
       ret (Response (VStr "") 204))
    any_exception
    (fun e =>
       run log Error "Error deleting workspace: {}" [VStr (msg e)];
       ret (jsonify (error_body (msg e)) 500)).

(** [POST /api/v1/roles] *)
Definition create_role (data : value) : M response :=
  try_except
    (do role_id <- uuid4;
     do name <- lift (get data "name" VNone);
     do workspace_id <- lift (get data "workspace_id" VNone);
     if negb (truthy name) || negb (truthy workspace_id)
     then ret (jsonify (error_body "name and workspace_id are required") 400)
     else
       do conn <- get_db_connection;
       do created_at <- datetime_now;
       do updated_at <- datetime_now;
       do '(conn, cur) <-
         execute conn
           (Insert roles_table
              [("id", VStr role_id); ("name", name);
               ("workspace_id", workspace_id);
               ("created_at", created_at); ("updated_at", updated_at)]);
       do role <- fetchone cur;
       run commit conn;
       run cur_close;
       run conn_close;
       run log Info "Created role: {} - {} in workspace {}"
             [VStr role_id; name; workspace_id];
       ret (jsonify role 201))
    any_exception
    (fun e =>
       run log Error "Error creating role: {}" [VStr (msg e)];
       ret (jsonify (error_body (msg e)) 500)).

(** [GET /health] and [GET /healthz] *)
Definition health : M response :=
  try_except
    (do conn <- get_db_connection;
     run conn_close;
     ret (jsonify {[ "status" := VStr "healthy" ]} 200))
    any_exception
    (fun e =>
       ret (jsonify (<["status" := VStr "unhealthy"]> (error_body (msg e)))
                    503)).

(** [GET /api/v1/workspaces] *)
Definition list_workspaces : M response :=
  try_except
    (do conn <- get_db_connection;
     do cur <- execute_select conn (SelectAll workspaces_table);
     do workspaces <- fetchall cur;
     run cur_close;
     run conn_close;
     ret (jsonify (listing workspaces) 200))
    any_exception
    (fun e => ret (jsonify (error_body (msg e)) 500)).

(** [GET /api/v1/workspaces/<workspace_id>] *)
Definition get_workspace (workspace_id : string) : M response :=
  try_except
    (do conn <- get_db_connection;
     do cur <- execute_select conn (SelectById workspaces_table workspace_id);
     do workspace <- fetchone_or_none cur;
     run cur_close;
     run conn_close;
     match workspace with
     | Some ws =>
         if truthy (VDict ws) then ret (jsonify ws 200)
         else ret (jsonify (error_body "Workspace not found") 404)
     | None => ret (jsonify (error_body "Workspace not found") 404)
     end)
    any_exception
    (fun e => ret (jsonify (error_body (msg e)) 500)).

(** [GET /api/v1/roles]; [workspace_id] is
    [request.args.get('workspace_id')]. *)
Definition list_roles (workspace_id : option string) : M response :=
  try_except
    (do conn <- get_db_connection;
     do cur <-
       (if truthy (arg_value workspace_id)
        then execute_select conn
               (SelectWhere roles_table "workspace_id"
                            (default "" workspace_id))
        else execute_select conn (SelectAll roles_table));
     do roles <- fetchall cur;
     run cur_close;
     run conn_close;
     ret (jsonify (listing roles) 200))
    any_exception
    (fun e => ret (jsonify (error_body (msg e)) 500)).

End Rbac.

Import HostInventory Rbac.

(** ** Observations on a run *)

Module Obs.

Definition is_remote_call (ev : event) : bool :=
  match ev with EvHttp _ _ _ _ _ => true | _ => false end.

Definition is_log (ev : event) : bool :=
  match ev with EvLog _ _ _ => true | _ => false end.

(** The HTTP calls among a list of events. *)
Definition remote_calls (t : list event) : list event :=
  List.filter is_remote_call t.

(** How the remote push can fail: the transport raises a
    [RequestException] (connection error, timeout), or the remote answers
    with a status outside 2xx. *)
Definition push_failed (r : exn + http_response) : Prop :=
  match r with
  | inl x => is_request_exception x = true
  | inr resp => (status_code resp <? 200)%Z || (299 <? status_code resp)%Z = true
  end.

(** No row of [tbl] has the given id. *)
Definition absent (tbl id : string) (db : database) : Prop :=
  List.filter (id_matches id) (table db tbl) = [].

(** The columns [create_host] inserts for body [d], the clock having been
    read [t] times. *)
Definition host_columns (e : env) (d : row) (t : nat)
  : list (string * value) :=
  [("id", VStr (fresh_uuid e));
   ("canonical_facts", default (VDict ∅) (d !! "canonical_facts"));
   ("display_name", default VNone (d !! "display_name"));
   ("workspace_id", default VNone (d !! "workspace_id"));
   ("created_at", VDatetime (clock e t));
   ("updated_at", VDatetime (clock e (S t)))].

Definition workspace_columns (e : env) (d : row) (t : nat)
  : list (string * value) :=
  [("id", VStr (fresh_uuid e));
   ("name", default VNone (d !! "name"));
   ("description", default (VStr "") (d !! "description"));
   ("created_at", VDatetime (clock e t));
   ("updated_at", VDatetime (clock e (S t)))].

(** The URL base the pushes use. *)
Definition kessel_base (e : env) : string :=
  default "http://kessel-inventory-api:8000"
          (getenv e "KESSEL_INVENTORY_API_URL").

(** The events a request appended to the trace of [w]. *)
Definition new_events (w w' : world) : list event :=
  drop (length (trace w)) (trace w').

(** The events of running [m] from [w]. *)
Definition events_of {A} (m : M A) (e : env) (w : world) : list event :=
  new_events w (m e w).2.

Definition push_timeout (ev : event) : option Z :=
  match ev with EvHttp _ _ _ t _ => Some t | _ => None end.

Definition is_execute (ev : event) : bool :=
  match ev with EvExecute _ => true | _ => false end.

(** The SQL statements among a list of events. *)
Definition statements (t : list event) : list event :=
  List.filter is_execute t.

(** [m] only appends to the trace, and only events that satisfy [P]. *)
Definition emits (P : event -> Prop) {A} (m : M A) : Prop :=
  forall e w, exists new,
    trace (m e w).2 = (trace w ++ new)%list /\ Forall P new.

Definition not_remote (ev : event) : Prop := is_remote_call ev = false.

(** Some environment makes a push of [create_host] or [delete_host] go out
    with a timeout other than 5 seconds. *)
Definition timeout_configurable : Prop :=
  exists (e : env) (data : value) (id : string) (w : world) (ev : event),
    (In ev (remote_calls (events_of (create_host data) e w)) \/
     In ev (remote_calls (events_of (delete_host id) e w))) /\
    push_timeout ev <> Some 5%Z.

(** The columns an [INSERT] of [create_host], of [create_workspace], and
    the [UPDATE] of [update_host] can name. *)
Definition host_insert_columns : list string :=
  ["id"; "canonical_facts"; "display_name"; "workspace_id";
   "created_at"; "updated_at"].

Definition workspace_insert_columns : list string :=
  ["id"; "name"; "description"; "created_at"; "updated_at"].

Definition update_columns : list string :=
  ["display_name"; "canonical_facts"; "updated_at"].

(** The keys of the JSON body [create_host] posts. *)
Definition kessel_resource_keys : gset string :=
  {[ "resource_type"; "resource_id"; "workspace_id"; "metadata" ]}.

End Obs.

Export Obs.

(** Some environments, some stores and some request bodies. *)
Module Samples.

(** Database healthy, inventory API unreachable. *)
Definition env_down : env :=
  Env (fun _ => None) "6f1c" (fun n => 1000 + Z.of_nat n)%Z (fun _ => ∅)
      None None None None None
      (inl (Exn RequestException "connection refused")).

(** Database healthy, inventory API answering. *)
Definition env_up : env :=
  Env (fun _ => None) "6f1c" (fun n => 1000 + Z.of_nat n)%Z (fun _ => ∅)
      None None None None None
      (inr (HttpResponse 201 "created")).

(** The operator exports a timeout setting next to the API URL. *)
Definition env_timeout_30 : env :=
  Env (fun k => if String.eqb k "KESSEL_INVENTORY_API_TIMEOUT" then Some "30"
                else if String.eqb k "KESSEL_INVENTORY_API_URL"
                     then Some "http://kessel:9000"
                     else None)
      "6f1c" (fun n => 1000 + Z.of_nat n)%Z (fun _ => ∅)
      None None None None None
      (inl (Exn RequestException "read timed out")).

(** The database host is down. *)
Definition env_no_db : env :=
  Env (fun _ => None) "6f1c" (fun n => 1000 + Z.of_nat n)%Z (fun _ => ∅)
      (Some (Exn DatabaseError "could not connect to server"))
      None None None None
      (inr (HttpResponse 201 "created")).

Definition w_empty : world := World ∅ 0 [].

(** One host whose row has a [version] column holding 1. *)
Definition versioned_host : row :=
  <["id" := VStr "h-1"]>
  (<["display_name" := VStr "alpha"]>
  (<["version" := VInt 1]> ∅)).

Definition w_versioned : world :=
  World {[ "inventory.hosts" := [versioned_host] ]} 0 [].

Definition body_h1 : value := VDict {[ "display_name" := VStr "h1" ]}.
Definition body_rename : value := VDict {[ "display_name" := VStr "beta" ]}.
Definition body_w1 : value := VDict {[ "name" := VStr "w1" ]}.
Definition body_other : value := VDict {[ "tags" := VList [VStr "x"] ]}.
Definition body_role : value :=
  VDict (<["name" := VStr "admin"]> {[ "workspace_id" := VStr "ws-1" ]}).
Definition body_group : value := VDict {[ "name" := VStr "g1" ]}.

End Samples.

Import Samples.

(** ** Observations on reads and on sequences of requests *)

Module Api.

(** Every request to [m] is answered, with one of [codes]. *)
Definition answers (m : M response) (codes : list Z) : Prop :=
  forall e w, exists r, (m e w).1 = inr r /\ In (status r) codes.

(** The database calls a read makes all return. *)
Definition read_ok (e : env) : Prop :=
  connect_exn e = None /\ execute_exn e = None /\
  cur_close_exn e = None /\ conn_close_exn e = None.

(** The database calls a write makes all return. *)
Definition write_ok (e : env) : Prop :=
  connect_exn e = None /\ execute_exn e = None /\ commit_exn e = None /\
  cur_close_exn e = None /\ conn_close_exn e = None.

(** Opening, closing a cursor, closing: all a read leaves in the trace. *)
Definition is_session (ev : event) : bool :=
  match ev with
  | EvConnect | EvCursorClose | EvConnClose => true
  | _ => false
  end.

(** The rows a list endpoint selects from a table. *)
Definition selection (workspace_id : option string) (tbl : list row)
  : list row :=
  match workspace_id with
  | Some (String a s) =>
      List.filter (column_is "workspace_id" (String a s)) tbl
  | _ => tbl
  end.

Definition is_dict (v : value) : bool :=
  match v with VDict _ => true | _ => false end.

(** psycopg2 refuses to adapt a string that contains a NUL character. *)
Fixpoint has_nul (s : string) : bool :=
  match s with
  | EmptyString => false
  | String c s' => Ascii.eqb c Ascii.zero || has_nul s'
  end.

Definition listed_rows (ws : option string) (tbl : list row) : list row :=
  if truthy (arg_value ws)
  then merge_sort newest_first
         (List.filter (column_is "workspace_id" (default "" ws)) tbl)
  else merge_sort newest_first tbl.

End Api.

Export Api.

(** Requests run one after the other. *)
Module Runs.

(** The answer and the world of creating host [h1] in the empty store. *)
Definition r_h1 : response :=
  jsonify (assign (host_columns env_up {[ "display_name" := VStr "h1" ]} 0) ∅)
          201.
Definition w_h1 : world := (create_host body_h1 env_up w_empty).2.

(** Workspace [w1] created in the empty store. *)
Definition r_w1 : response :=
  jsonify (assign (workspace_columns env_up {[ "name" := VStr "w1" ]} 0) ∅) 201.
Definition w_w1 : world := (create_workspace body_w1 env_up w_empty).2.

(** Host [h-1] of [w_versioned] renamed, and deleted. *)
Definition r_renamed : response :=
  jsonify (assign [("display_name", VStr "beta");
                   ("updated_at", VDatetime 1000)] versioned_host) 200.
Definition w_renamed : world :=
  (update_host "h-1" body_rename env_up w_versioned).2.
Definition w_deleted : world := (delete_host "h-1" env_up w_versioned).2.

(** A store with one workspace, and that workspace deleted. *)
Definition w_one_workspace : world :=
  World {[ "rbac.workspaces" :=
             [ <["id" := VStr "ws-1"]> {[ "name" := VStr "w1" ]} ] ]} 0 [].
Definition w_workspace_deleted : world :=
  (delete_workspace "ws-1" env_up w_one_workspace).2.

(** Bodies at the edges: a blank name, JSON null. *)
Definition body_blank : value := VDict {[ "display_name" := VStr "" ]}.
Definition body_null : value := VNone.

(** Three hosts in two workspaces, oldest first in the table. *)
Definition host_a : row :=
  <["id" := VStr "a"]> (<["workspace_id" := VStr "ws-1"]>
  {[ "created_at" := VDatetime 10 ]}).
Definition host_b : row :=
  <["id" := VStr "b"]> (<["workspace_id" := VStr "ws-2"]>
  {[ "created_at" := VDatetime 20 ]}).
Definition host_c : row :=
  <["id" := VStr "c"]> (<["workspace_id" := VStr "ws-1"]>
  {[ "created_at" := VDatetime 30 ]}).
Definition w_three_hosts : world :=
  World {[ "inventory.hosts" := [host_a; host_b; host_c] ]} 0 [].

(** The inventory API answers 204. *)
Definition env_204 : env :=
  Env (fun _ => None) "6f1c" (fun n => 1000 + Z.of_nat n)%Z (fun _ => ∅)
      None None None None None
      (inr (HttpResponse 204 "")).

End Runs.

Import Runs.

(** ** Proof tools *)

Ltac unfold_monad :=
  cbv [try_except bind ret raise lift ask emit guard_exn
       uuid4 os_getenv datetime_now get_db_connection execute fetchone commit
       cur_close conn_close log requests_call any_exception
       KESSEL_INVENTORY_URL report_to_kessel delete_from_kessel
       collect_update];
  cbv beta iota.

(** Close a path that ends in an error response although the
    hypothesis says the status is a success one, or the other way round. *)
Ltac wrong_status :=
  let H := fresh in let Hs := fresh in
  solve [ intros H Hs; inversion H; subst; clear H;
          first [ discriminate Hs | cbv in Hs; discriminate Hs ] ].

(** Normalise the world after a few steps. *)
Ltac tidy :=
  cbv beta iota;
  cbn [store ticks trace fst snd rowcount rows working length Nat.eqb negb
       List.map];
  cbv beta iota;
  rewrite <- ?app_assoc; cbn [app].

(** One case split on the next thing the run depends on. *)
Ltac split_path :=
  match goal with
  | |- context [match connect_exn ?e with _ => _ end] =>
      destruct (connect_exn e) eqn:?
  | |- context [match execute_exn ?e with _ => _ end] =>
      destruct (execute_exn e) eqn:?; cbv [run_stmt]
  | |- context [match commit_exn ?e with _ => _ end] =>
      destruct (commit_exn e) eqn:?
  | |- context [match cur_close_exn ?e with _ => _ end] =>
      destruct (cur_close_exn e) eqn:?
  | |- context [match conn_close_exn ?e with _ => _ end] =>
      destruct (conn_close_exn e) eqn:?
  | |- context [match remote ?e with _ => _ end] =>
      destruct (remote e) eqn:?
  | |- context [is_request_exception ?x] =>
      destruct (is_request_exception x) eqn:?
  | |- context [if negb (truthy ?v) then _ else _] =>
      destruct (truthy v) eqn:?
  | |- context [length (List.filter ?f ?l)] =>
      destruct (List.filter f l) eqn:?
  | |- context [if ?b then _ else _] => destruct b eqn:?
  | |- context [match ?d !! ?k with _ => _ end] => destruct (d !! k) eqn:?
  end; tidy.

(** All paths of a handler, each closed by [leaf]. *)
Ltac paths leaf := tidy; repeat first [ leaf | split_path ].

Ltac calls_leaf :=
  rewrite ?drop_app_length, ?drop_all;
  cbn [remote_calls List.filter is_remote_call];
  solve [ left; reflexivity | right; eauto ].

Ltac stmts_leaf :=
  rewrite ?drop_app_length, ?drop_all;
  cbn [statements List.filter is_execute];
  solve [ left; reflexivity | right; eauto ].

(** A path on which the store is untouched, or which contradicts what
    [Hpre] says about the answer or about the call that raised. *)
Ltac early_leaf Hpre :=
  solve [ let H := fresh in
          intros H; inversion H; subst; clear H;
          first [ reflexivity
                | exfalso; revert Hpre; cbn [status jsonify];
                  let Hp := fresh in
                  let x := fresh in
                  intros [Hp|[Hp|[[x Hp]|[x Hp]]]]; discriminate Hp ] ].

(** The path of [update_host] that answers 200. *)
Ltac update_ok_leaf :=
  match goal with
  | Hfl : List.filter ?f ?l = ?h :: _
    |- (inr (jsonify (assign ?s ?h) _), _) = _ -> _ =>
      let H := fresh in
      let Hin := fresh in
      intros H _; inversion H; subst; clear H;
      assert (Hin : In h (List.filter f l)) by (rewrite Hfl; left; reflexivity);
      apply filter_In in Hin; destruct Hin as [? ?];
      exists h, s;
      split; [assumption|]; split; [assumption|];
      split; [reflexivity|];
      repeat constructor; cbn; tauto
  end.

Lemma assign_lookup_other (sets : list (string * value)) (r : row) (c : string) :
  Forall (fun cv => cv.1 <> c) sets ->
  assign sets r !! c = r !! c.
Proof.
  unfold assign. revert r.
  induction sets as [|[k v] sets IH]; intros r Hne; [reflexivity|].
  inversion Hne as [|? ? Hk Hrest]; subst. simpl.
  rewrite IH by assumption. simpl in Hk. by rewrite lookup_insert_ne.
Qed.

Lemma filter_nonempty_length {A} (f : A -> bool) (l : list A) :
  List.filter f l <> [] -> (length (List.filter f l) =? 0)%nat = false.
Proof. destruct (List.filter f l); [congruence | reflexivity]. Qed.

(** ** Shape of the successful runs *)

(** A run of [create_host] that answers 201 went through every step: the
    body is a dict with a truthy [display_name], the row was inserted and
    committed, and the remote call returned or raised before the answer. *)
Lemma create_host_201 (data : value) (e : env) (w : world)
    (r : response) (w' : world) :
  create_host data e w = (inr r, w') ->
  status r = 201%Z ->
  exists (d : row) (lg : event),
    data = VDict d /\
    truthy (default VNone (d !! "display_name")) = true /\
    connect_exn e = None /\ execute_exn e = None /\ commit_exn e = None /\
    r = jsonify (assign (host_columns e d (ticks w))
                        (column_defaults e hosts_table)) 201 /\
    store w'
    = <[hosts_table :=
          (table (store w) hosts_table
           ++ [assign (host_columns e d (ticks w))
                      (column_defaults e hosts_table)])%list]> (store w) /\
    is_log lg = true /\
    trace w' =
      (trace w ++
       [EvConnect; EvExecute (Insert hosts_table (host_columns e d (ticks w)));
        EvCommit; EvCursorClose; EvConnClose;
        EvLog Info "Created host in database: {} - {}"
          [VStr (fresh_uuid e); default VNone (d !! "display_name")];
        EvHttp POST (kessel_base e ++ "/api/inventory/v1beta2/resources")
          (Some (VDict (kessel_resource (fresh_uuid e)
                          (default VNone (d !! "workspace_id"))
                          (default VNone (d !! "display_name"))
                          (default (VDict ∅) (d !! "canonical_facts")))))
          5 (remote e);
        lg])%list.
Proof.
  unfold create_host, host_columns, kessel_base. unfold_monad. cbv [get].
  destruct data; cbv beta iota; try wrong_status.
  destruct (d !! "display_name") as [dn|] eqn:Hdn; cbv beta iota;
    [| cbn [truthy negb]; wrong_status ].
  destruct (truthy dn) eqn:Ht; tidy; [| wrong_status ].
  destruct (connect_exn e) eqn:Hc; tidy; [ wrong_status |].
  destruct (execute_exn e) eqn:He; cbv [run_stmt]; tidy; [ wrong_status |].
  destruct (commit_exn e) eqn:Hm; tidy; [ wrong_status |].
  destruct (cur_close_exn e) eqn:Hcc; tidy; [ wrong_status |].
  destruct (conn_close_exn e) eqn:Hnc; tidy; [ wrong_status |].
  destruct (remote e) as [x|resp] eqn:Hr; tidy.
  - destruct (is_request_exception x); tidy; [| wrong_status ].
    intros H _. inversion H; subst; clear H.
    exists d. eexists. rewrite Hdn. cbn [default from_option id].
    repeat split; try reflexivity; try exact Ht.
  - destruct ((status_code resp =? 200)%Z || (status_code resp =? 201)%Z); tidy;
      intros H _; inversion H; subst; clear H;
      exists d; eexists; rewrite Hdn; cbn [default from_option id];
      repeat split; try reflexivity; try exact Ht.
Qed.

(** Likewise for a run of [delete_host] that answers 204. *)
Lemma delete_host_204 (id : string) (e : env) (w : world)
    (r : response) (w' : world) :
  delete_host id e w = (inr r, w') ->
  status r = 204%Z ->
  exists post : list event,
    ~ absent hosts_table id (store w) /\
    connect_exn e = None /\ execute_exn e = None /\ commit_exn e = None /\
    r = Response (VStr "") 204 /\
    store w'
    = <[hosts_table := List.filter (fun r => negb (id_matches id r))
                                   (table (store w) hosts_table)]> (store w) /\
    forallb is_log post = true /\
    trace w' =
      (trace w ++
       [EvConnect; EvExecute (Delete hosts_table id);
        EvCommit; EvCursorClose; EvConnClose;
        EvLog Info "Deleted host: {}" [VStr id];
        EvHttp DELETE
          (kessel_base e ++ "/api/inventory/v1/resources/hbi/host/" ++ id)
          None 5 (remote e)] ++ post)%list.
Proof.
  unfold delete_host, kessel_base, absent. unfold_monad.
  destruct (connect_exn e) eqn:Hc; tidy; [ wrong_status |].
  destruct (execute_exn e) eqn:He; cbv [run_stmt]; tidy; [ wrong_status |].
  destruct (List.filter (id_matches id) (table (store w) hosts_table))
    as [|hit hits] eqn:Hf; tidy; [ wrong_status |].
  destruct (commit_exn e) eqn:Hm; tidy; [ wrong_status |].
  destruct (cur_close_exn e) eqn:Hcc; tidy; [ wrong_status |].
  destruct (conn_close_exn e) eqn:Hnc; tidy; [ wrong_status |].
  destruct (remote e) as [x|resp] eqn:Hr; tidy.
  - destruct (is_request_exception x); tidy; [| wrong_status ].
    intros H _. inversion H; subst; clear H.
    eexists [_]. repeat split; try reflexivity; try discriminate.
  - intros H _. inversion H; subst; clear H.
    exists []. repeat split; try reflexivity; try discriminate.
Qed.

(** ** The HTTP calls of a request *)

(** Whatever the request and the environment, [create_host] makes no HTTP
    call or exactly one, the POST of the host resource. *)
Lemma create_host_calls (data : value) (e : env) (w : world) :
  remote_calls (events_of (create_host data) e w) = [] \/
  exists ws dn cf,
    remote_calls (events_of (create_host data) e w)
    = [EvHttp POST (kessel_base e ++ "/api/inventory/v1beta2/resources")
         (Some (VDict (kessel_resource (fresh_uuid e) ws dn cf)))
         5 (remote e)].
Proof.
  unfold events_of, new_events, create_host, kessel_base. unfold_monad.
  cbv [get].
  destruct data; paths calls_leaf.
Qed.

Lemma delete_host_calls (id : string) (e : env) (w : world) :
  remote_calls (events_of (delete_host id) e w) = [] \/
  remote_calls (events_of (delete_host id) e w)
  = [EvHttp DELETE
       (kessel_base e ++ "/api/inventory/v1/resources/hbi/host/" ++ id)
       None 5 (remote e)].
Proof.
  unfold events_of, new_events, delete_host, kessel_base. unfold_monad.
  paths calls_leaf.
Qed.

Lemma kessel_resource_dom (host_id : string) (ws dn cf : value) :
  dom (kessel_resource host_id ws dn cf) = kessel_resource_keys.
Proof.
  unfold kessel_resource, kessel_resource_keys.
  rewrite !dom_insert_L, dom_empty_L. set_solver.
Qed.

(** ** Statements and answers of the other handlers *)

(** A request to [create_host] runs no statement or exactly one, the
    [INSERT] into the hosts table. *)
Lemma create_host_statements (data : value) (e : env) (w : world) :
  statements (events_of (create_host data) e w) = [] \/
  exists cols,
    statements (events_of (create_host data) e w)
    = [EvExecute (Insert hosts_table cols)].
Proof.
  unfold events_of, new_events, create_host. unfold_monad. cbv [get].
  destruct data; paths stmts_leaf.
Qed.

Lemma create_workspace_statements (data : value) (e : env) (w : world) :
  statements (events_of (create_workspace data) e w) = [] \/
  exists cols,
    statements (events_of (create_workspace data) e w)
    = [EvExecute (Insert workspaces_table cols)].
Proof.
  unfold events_of, new_events, create_workspace. unfold_monad. cbv [get].
  destruct data; paths stmts_leaf.
Qed.

(** A run of [update_host] that answers 200 returns a stored row with that
    id, changed in columns of [update_columns] only. *)
Lemma update_host_200 (id : string) (data : value) (e : env) (w : world)
    (r : response) (w' : world) :
  update_host id data e w = (inr r, w') ->
  status r = 200%Z ->
  exists (old : row) (sets : list (string * value)),
    In old (table (store w) hosts_table) /\
    id_matches id old = true /\
    r = jsonify (assign sets old) 200 /\
    Forall (fun cv => In cv.1 update_columns) sets.
Proof.
  unfold update_host, update_columns. unfold_monad. cbv [contains getitem].
  destruct data; paths ltac:(first [wrong_status | solve [update_ok_leaf]]).
Qed.

Lemma create_workspace_201 (data : value) (e : env) (w : world)
    (r : response) (w' : world) :
  create_workspace data e w = (inr r, w') ->
  status r = 201%Z ->
  exists d : row,
    data = VDict d /\
    r = jsonify (assign (workspace_columns e d (ticks w))
                        (column_defaults e workspaces_table)) 201.
Proof.
  unfold create_workspace, workspace_columns. unfold_monad. cbv [get].
  destruct data;
    paths ltac:(first [wrong_status
                      | solve [intros H _; inversion H; subst; eexists;
                               split; reflexivity]]).
Qed.

(** ** Validation *)

(** C7. A create request whose JSON body lacks a required field is
    answered 400 before anything else happens: [create_host] without
    [display_name], [create_workspace] without [name], [create_role] without
    [name] or without [workspace_id].  The world is returned as it was: no
    database call, no write, no log line. *)
Theorem create_missing_field_400 (d : row) (e : env) (w : world) :
  (d !! "display_name" = None ->
     create_host (VDict d) e w
     = (inr (jsonify (error_body "display_name is required") 400), w)) /\
  (d !! "name" = None ->
     create_workspace (VDict d) e w
     = (inr (jsonify (error_body "name is required") 400), w)) /\
  (d !! "name" = None \/ d !! "workspace_id" = None ->
     create_role (VDict d) e w
     = (inr (jsonify (error_body "name and workspace_id are required") 400), w)).
Proof.
  repeat split.
  - intros H. unfold create_host. unfold_monad. cbv [get]. by rewrite H.
  - intros H. unfold create_workspace. unfold_monad. cbv [get]. by rewrite H.
  - intros H. unfold create_role. unfold_monad. cbv [get].
    destruct H as [H|H]; rewrite H; cbn [truthy negb orb]; [reflexivity|].
    by rewrite orb_true_r.
Qed.

Lemma create_missing_field_400_witness :
  let d : row := {[ "tags" := VList [VStr "x"] ]} in
  create_host (VDict d) env_down w_empty
  = (inr (jsonify (error_body "display_name is required") 400), w_empty) /\
  create_workspace (VDict d) env_down w_empty
  = (inr (jsonify (error_body "name is required") 400), w_empty) /\
  create_role (VDict d) env_down w_empty
  = (inr (jsonify (error_body "name and workspace_id are required") 400),
     w_empty).
Proof.
  intros d.
  destruct (create_missing_field_400 d env_down w_empty) as (H1 & H2 & H3).
  split; [apply H1; reflexivity | split; [apply H2; reflexivity |]].
  apply H3. left. reflexivity.
Defined.

(** C10, as stated, at a concrete request: the database host is down
    and the body names neither field; the handler connects before it looks
    at the body, so the answer is 500, not 400. *)
Lemma update_without_fields_db_down_500 :
  contains "display_name" body_other = inr false /\
  contains "canonical_facts" body_other = inr false /\
  (update_host "h-1" body_other env_no_db w_versioned).1
  = inr (jsonify (error_body "could not connect to server") 500).
Proof.
  repeat match goal with |- _ /\ _ => split end; vm_compute; reflexivity.
Qed.

(** C10, amended.  When the body contains neither [display_name] nor
    [canonical_facts] (as Python's [in] decides it, so also for a non-empty
    body), [update_host] runs no statement and leaves the stored rows, their
    [updated_at] included, as they were, whether or not a host with that id
    exists.  The connection having opened, the only call made is the connect
    and the answer is 400 [No fields to update]; the connect having raised,
    the answer is 500 with the message of the exception. *)
Theorem update_host_no_fields (host_id : string) (data : value)
    (e : env) (w : world) :
  contains "display_name" data = inr false ->
  contains "canonical_facts" data = inr false ->
  (connect_exn e = None ->
   update_host host_id data e w
   = (inr (jsonify (error_body "No fields to update") 400),
      World (store w) (ticks w) (trace w ++ [EvConnect]))) /\
  (forall x, connect_exn e = Some x ->
   update_host host_id data e w
   = (inr (jsonify (error_body (msg x)) 500),
      World (store w) (ticks w)
            (trace w ++ [EvLog Error "Error updating host: {}" [VStr (msg x)]]))) /\
  store (update_host host_id data e w).2 = store w /\
  statements (events_of (update_host host_id data) e w) = [].
Proof.
  intros H1 H2. unfold events_of, new_events, update_host. unfold_monad.
  destruct (connect_exn e) as [x|]; tidy.
  - split; [discriminate|]. split; [by intros ? [= <-]|].
    split; [reflexivity|]. by rewrite drop_app_length.
  - rewrite H1. tidy. rewrite H2. tidy.
    split; [reflexivity|]. split; [discriminate|]. split; [reflexivity|].
    by rewrite drop_app_length.
Qed.

Lemma update_host_no_fields_witness :
  update_host "h-1" body_other env_down w_versioned
  = (inr (jsonify (error_body "No fields to update") 400),
     World (store w_versioned) (ticks w_versioned)
           (trace w_versioned ++ [EvConnect])) /\
  store (update_host "h-1" body_other env_down w_versioned).2
  = store w_versioned.
Proof.
  destruct (update_host_no_fields "h-1" body_other env_down w_versioned
              eq_refl eq_refl) as (H400 & _ & Hstore & _).
  split; [apply H400; reflexivity | exact Hstore].
Defined.

(** ** Missing targets *)

(** C8, as stated, at a concrete request: a PATCH that names neither
    [display_name] nor [canonical_facts], sent for an id no host has, is
    answered 400, not 404. *)
Lemma update_missing_host_without_fields_400 :
  absent hosts_table "h-9" (store w_versioned) /\
  (update_host "h-9" body_other env_up w_versioned).1
  = inr (jsonify (error_body "No fields to update") 400).
Proof.
  repeat match goal with |- _ /\ _ => split end; vm_compute; reflexivity.
Qed.

(** C8, amended.  When the connection opens and the statement runs, a
    delete whose id matches no row, and an update whose body names
    [display_name] or [canonical_facts] and whose id matches no row, are
    answered 404 with an error body; the request ends after [execute]:
    nothing is committed and the stored rows are the ones from before.  An
    update whose body names neither field is answered 400 before any
    statement, whether or not the host exists. *)
Theorem missing_target_404 (id : string) (e : env) (w : world) :
  connect_exn e = None ->
  execute_exn e = None ->
  (absent hosts_table id (store w) ->
     (forall d : row,
        is_Some (d !! "display_name") \/ is_Some (d !! "canonical_facts") ->
        exists s,
          update_host id (VDict d) e w
          = (inr (jsonify (error_body "Host not found") 404),
             World (store w) (S (ticks w))
                   (trace w ++ [EvConnect; EvExecute s]))) /\
     delete_host id e w
     = (inr (jsonify (error_body "Host not found") 404),
        World (store w) (ticks w)
              (trace w ++ [EvConnect; EvExecute (Delete hosts_table id)]))) /\
  (absent workspaces_table id (store w) ->
     delete_workspace id e w
     = (inr (jsonify (error_body "Workspace not found") 404),
        World (store w) (ticks w)
              (trace w ++ [EvConnect; EvExecute (Delete workspaces_table id)]))) /\
  (forall d : row,
     d !! "display_name" = None -> d !! "canonical_facts" = None ->
     update_host id (VDict d) e w
     = (inr (jsonify (error_body "No fields to update") 400),
        World (store w) (ticks w) (trace w ++ [EvConnect]))).
Proof.
  intros Hc He. unfold absent. repeat split.
  - intros d Hd. unfold update_host. unfold_monad. rewrite Hc.
    cbv [contains getitem].
    destruct (d !! "display_name") as [dn|] eqn:Hdn;
      destruct (d !! "canonical_facts") as [cf|] eqn:Hcf;
      try (destruct Hd as [[? Hd]|[? Hd]]; discriminate Hd);
      cbn [bool_decide decide_rel is_Some_dec app]; cbv beta iota;
      rewrite He; cbv [run_stmt]; tidy; rewrite H; tidy;
      eexists; reflexivity.
  - unfold delete_host. unfold_monad. rewrite Hc, He.
    cbv [run_stmt]. tidy. rewrite H. tidy. reflexivity.
  - intros H. unfold delete_workspace. unfold_monad. rewrite Hc, He.
    cbv [run_stmt]. tidy. rewrite H. tidy. reflexivity.
  - intros d H1 H2. unfold update_host. unfold_monad. rewrite Hc.
    cbv [contains]. rewrite H1, H2. reflexivity.
Qed.

Lemma missing_target_404_witness :
  (update_host "h-9" body_rename env_down w_versioned).1
  = inr (jsonify (error_body "Host not found") 404) /\
  (delete_host "h-9" env_down w_versioned).1
  = inr (jsonify (error_body "Host not found") 404) /\
  (delete_workspace "h-9" env_down w_versioned).1
  = inr (jsonify (error_body "Workspace not found") 404) /\
  (update_host "h-9" body_other env_down w_versioned).1
  = inr (jsonify (error_body "No fields to update") 400).
Proof.
  destruct (missing_target_404 "h-9" env_down w_versioned eq_refl eq_refl)
    as (Hhost & Hws & H400).
  destruct Hhost as [Hupd Hdel]; [vm_compute; reflexivity|].
  destruct (Hupd {[ "display_name" := VStr "beta" ]}) as [s Hs].
  { left. vm_compute. eauto. }
  split; [| split; [| split]].
  - unfold body_rename. rewrite Hs. reflexivity.
  - rewrite Hdel. reflexivity.
  - rewrite Hws; [reflexivity | vm_compute; reflexivity].
  - unfold body_other. rewrite H400; reflexivity.
Defined.

(** ** Remote failures *)

(** C1. Once the local write of [create_host] or [delete_host] has
    gone through (connect, execute, commit and the two closes returned), a
    push that raises a [RequestException] or is answered outside 2xx changes
    nothing for the caller: the answer is 201 with the inserted row, or
    204, and the committed rows are those of the transaction.  [create_host]
    ends by logging a warning for the failed push. *)
Theorem remote_failure_not_propagated (e : env) (w : world) :
  connect_exn e = None ->
  execute_exn e = None ->
  commit_exn e = None ->
  cur_close_exn e = None ->
  conn_close_exn e = None ->
  push_failed (remote e) ->
  (forall d : row,
     truthy (default VNone (d !! "display_name")) = true ->
     let host := assign (host_columns e d (ticks w))
                        (column_defaults e hosts_table) in
     let r := create_host (VDict d) e w in
     r.1 = inr (jsonify host 201) /\
     store r.2
     = <[hosts_table := (table (store w) hosts_table ++ [host])%list]> (store w) /\
     exists tpl args, last (trace r.2) = Some (EvLog Warning tpl args)) /\
  (forall id : string,
     ~ absent hosts_table id (store w) ->
     let r := delete_host id e w in
     r.1 = inr (Response (VStr "") 204) /\
     store r.2
     = <[hosts_table := List.filter (fun r => negb (id_matches id r))
                                    (table (store w) hosts_table)]> (store w)).
Proof.
  intros Hc He Hm Hcc Hnc Hr. split.
  - intros d Ht. cbv zeta. unfold create_host, host_columns. unfold_monad.
    cbv [get].
    destruct (d !! "display_name") as [dn|] eqn:Hdn; cbn [default from_option id] in *;
      [| discriminate Ht].
    rewrite Ht; tidy. rewrite Hc; tidy. rewrite He; cbv [run_stmt]; tidy.
    rewrite Hm; tidy. rewrite Hcc; tidy. rewrite Hnc; tidy.
    destruct (remote e) as [x|resp] eqn:Hx; cbn [push_failed] in Hr.
    + rewrite Hr. tidy. repeat split; try reflexivity.
      do 2 eexists. rewrite last_app. reflexivity.
    + replace ((status_code resp =? 200)%Z || (status_code resp =? 201)%Z)
        with false by (symmetry; apply orb_false_intro; lia).
      tidy. repeat split; try reflexivity.
      do 2 eexists. rewrite last_app. reflexivity.
  - intros id Hin. cbv zeta. unfold delete_host. unfold_monad.
    rewrite Hc, He. cbv [run_stmt]. tidy.
    rewrite (filter_nonempty_length _ _ Hin); tidy.
    rewrite Hm; tidy. rewrite Hcc; tidy. rewrite Hnc; tidy.
    destruct (remote e) as [x|resp] eqn:Hx; cbn [push_failed] in Hr.
    + rewrite Hr. tidy. split; reflexivity.
    + tidy. split; reflexivity.
Qed.

Lemma remote_failure_not_propagated_witness :
  (create_host body_h1 env_down w_versioned).1
  = inr (jsonify (assign (host_columns env_down {[ "display_name" := VStr "h1" ]} 0)
                         ∅) 201) /\
  (delete_host "h-1" env_down w_versioned).1 = inr (Response (VStr "") 204).
Proof.
  destruct (remote_failure_not_propagated env_down w_versioned
              eq_refl eq_refl eq_refl eq_refl eq_refl eq_refl) as [Hc Hd].
  split.
  - apply (Hc {[ "display_name" := VStr "h1" ]}). vm_compute. reflexivity.
  - apply (Hd "h-1"). unfold absent. intros H.
    apply (f_equal (@length row)) in H. vm_compute in H. discriminate H.
Defined.

(** ** The push is synchronous *)

(** C2, as stated, at a concrete request: the inventory API is
    unreachable, [create_host] answers 201, and the run contains the HTTP
    call together with the exception it ended in, so the answer was produced
    after the call had finished. *)
Lemma create_host_waits_for_push :
  (create_host body_h1 env_down w_empty).1
  = inr (jsonify (assign (host_columns env_down {[ "display_name" := VStr "h1" ]} 0)
                         ∅) 201) /\
  remote_calls (events_of (create_host body_h1) env_down w_empty)
  = [EvHttp POST "http://kessel-inventory-api:8000/api/inventory/v1beta2/resources"
       (Some (VDict (kessel_resource "6f1c" VNone (VStr "h1") (VDict ∅))))
       5 (inl (Exn RequestException "connection refused"))] /\
  ~ (remote_calls (events_of (create_host body_h1) env_down w_empty) = []).
Proof. vm_compute. repeat split. discriminate. Qed.

(** C2, amended.  Every run of [create_host] that answers 201 and every
    run of [delete_host] that answers 204 has made the HTTP call after the
    commit, with the 5 second timeout, and has seen it return or raise
    ([remote e]) before answering; what follows the call in the run is
    logging only.  And with the remote unreachable (the call raises a
    [RequestException]) a request whose local write has gone through is
    still answered 201, respectively 204. *)
Theorem success_answer_follows_push (e : env) (w : world)
    (r : response) (w' : world) :
  (forall data,
     create_host data e w = (inr r, w') -> status r = 201%Z ->
     exists pre url json post,
       new_events w w'
       = (pre ++ EvHttp POST url json 5 (remote e) :: post)%list /\
       In EvCommit pre /\ remote_calls pre = [] /\
       forallb is_log post = true) /\
  (forall id,
     delete_host id e w = (inr r, w') -> status r = 204%Z ->
     exists pre url json post,
       new_events w w'
       = (pre ++ EvHttp DELETE url json 5 (remote e) :: post)%list /\
       In EvCommit pre /\ remote_calls pre = [] /\
       forallb is_log post = true) /\
  (forall x,
     connect_exn e = None -> execute_exn e = None -> commit_exn e = None ->
     cur_close_exn e = None -> conn_close_exn e = None ->
     remote e = inl x -> is_request_exception x = true ->
     (forall d : row,
        truthy (default VNone (d !! "display_name")) = true ->
        exists host, (create_host (VDict d) e w).1 = inr (jsonify host 201)) /\
     (forall id,
        ~ absent hosts_table id (store w) ->
        (delete_host id e w).1 = inr (Response (VStr "") 204))).
Proof.
  split; [| split].
  - intros data Hrun Hst.
    destruct (create_host_201 _ _ _ _ _ Hrun Hst)
      as (d & lg & _ & _ & _ & _ & _ & _ & _ & Hlg & Htr).
    unfold new_events. rewrite Htr, drop_app_length.
    eexists [_; _; _; _; _; _], _, _, [lg].
    split; [reflexivity|]. cbn. rewrite Hlg. intuition.
  - intros id Hrun Hst.
    destruct (delete_host_204 _ _ _ _ _ Hrun Hst)
      as (post & _ & _ & _ & _ & _ & _ & Hpost & Htr).
    unfold new_events. rewrite Htr, drop_app_length.
    eexists [_; _; _; _; _; _], _, _, post.
    split; [reflexivity|]. cbn. intuition.
  - intros x Hc He Hm Hcc Hnc Hr Hx. split.
    + intros d Ht. unfold create_host. unfold_monad. cbv [get].
      destruct (d !! "display_name") as [dn|];
        cbn [default from_option id] in Ht; [| discriminate Ht].
      rewrite Ht; tidy. rewrite Hc; tidy. rewrite He; cbv [run_stmt]; tidy.
      rewrite Hm; tidy. rewrite Hcc; tidy. rewrite Hnc; tidy.
      rewrite Hr; tidy. rewrite Hx; tidy. eexists. reflexivity.
    + intros id Hin. unfold delete_host. unfold_monad.
      rewrite Hc, He. cbv [run_stmt]. tidy.
      rewrite (filter_nonempty_length _ _ Hin); tidy.
      rewrite Hm; tidy. rewrite Hcc; tidy. rewrite Hnc; tidy.
      rewrite Hr; tidy. rewrite Hx; tidy. reflexivity.
Qed.

Lemma success_answer_follows_push_witness :
  (exists pre url json post,
     new_events w_empty (create_host body_h1 env_down w_empty).2
     = (pre ++ EvHttp POST url json 5 (remote env_down) :: post)%list /\
     In EvCommit pre /\ remote_calls pre = [] /\ forallb is_log post = true) /\
  (exists host,
     (create_host body_h1 env_down w_empty).1 = inr (jsonify host 201)) /\
  (delete_host "h-1" env_down w_versioned).1 = inr (Response (VStr "") 204).
Proof.
  destruct (success_answer_follows_push env_down w_empty
              (jsonify (assign (host_columns env_down
                                  {[ "display_name" := VStr "h1" ]} 0) ∅) 201)
              (create_host body_h1 env_down w_empty).2) as (Hc & _ & Hd).
  destruct (success_answer_follows_push env_down w_versioned
              (Response (VStr "") 204)
              (delete_host "h-1" env_down w_versioned).2) as (_ & _ & Hd').
  split; [| split].
  - apply (Hc body_h1); vm_compute; reflexivity.
  - destruct (Hd (Exn RequestException "connection refused")
                 eq_refl eq_refl eq_refl eq_refl eq_refl eq_refl eq_refl)
      as [Hcreate _].
    apply (Hcreate {[ "display_name" := VStr "h1" ]}). reflexivity.
  - destruct (Hd' (Exn RequestException "connection refused")
                  eq_refl eq_refl eq_refl eq_refl eq_refl eq_refl eq_refl)
      as [_ Hdelete].
    apply (Hdelete "h-1"). unfold absent. intros H.
    apply (f_equal (@length row)) in H. vm_compute in H. discriminate H.
Defined.

(** ** Timeout and retries of the push *)

(** C9, as stated, fails on "configurable": no environment, whatever
    its variables, makes a push go out with a timeout other than 5; with a
    timeout variable exported next to a custom API URL, the URL follows the
    environment and the timeout is still 5. *)
Lemma push_timeout_not_configurable :
  ~ timeout_configurable /\
  remote_calls (events_of (create_host body_h1) env_timeout_30 w_empty)
  = [EvHttp POST "http://kessel:9000/api/inventory/v1beta2/resources"
       (Some (VDict (kessel_resource "6f1c" VNone (VStr "h1") (VDict ∅))))
       5 (inl (Exn RequestException "read timed out"))].
Proof.
  split; [| vm_compute; reflexivity].
  intros (e & data & id & w & ev & [Hin|Hin] & Hne).
  - destruct (create_host_calls data e w) as [H|(ws & dn & cf & H)];
      rewrite H in Hin; [destruct Hin|].
    destruct Hin as [<-|[]]. apply Hne. reflexivity.
  - destruct (delete_host_calls id e w) as [H|H];
      rewrite H in Hin; [destruct Hin|].
    destruct Hin as [<-|[]]. apply Hne. reflexivity.
Qed.

(** C9, amended.  A request makes at most one push, so a failed or timed
    out push is not tried again by the handler, and every push goes out with
    the timeout 5, whatever the environment. *)
Theorem push_once_timeout_5 (data : value) (id : string)
    (e : env) (w : world) :
  let posted := remote_calls (events_of (create_host data) e w) in
  let deleted := remote_calls (events_of (delete_host id) e w) in
  (length posted <= 1)%nat /\
  Forall (fun ev => push_timeout ev = Some 5%Z) posted /\
  (length deleted <= 1)%nat /\
  Forall (fun ev => push_timeout ev = Some 5%Z) deleted.
Proof.
  cbv zeta.
  destruct (create_host_calls data e w) as [Hc|(ws & dn & cf & Hc)];
    destruct (delete_host_calls id e w) as [Hd|Hd];
    rewrite Hc, Hd; cbn [length push_timeout];
    repeat split; auto using Forall_nil; repeat constructor.
Qed.

(** ** What a push carries *)

(** C3, as stated, fails on the idempotency key: the body posted for a
    new host has no [version] entry, and the delete push has no body. *)
Lemma push_without_version :
  (exists url j res,
     remote_calls (events_of (create_host body_h1) env_up w_empty)
     = [EvHttp POST url (Some (VDict j)) 5 res] /\
     j !! "version" = None) /\
  (exists url res,
     remote_calls (events_of (delete_host "h-1") env_up w_versioned)
     = [EvHttp DELETE url None 5 res]).
Proof.
  split.
  - exists "http://kessel-inventory-api:8000/api/inventory/v1beta2/resources",
      (kessel_resource "6f1c" VNone (VStr "h1") (VDict ∅)),
      (inr (HttpResponse 201 "created")).
    split; vm_compute; reflexivity.
  - do 2 eexists. vm_compute. reflexivity.
Qed.

(** C3, amended.  A push identifies the entity by its id alone: the POST
    of [create_host] carries exactly [resource_type], [resource_id],
    [workspace_id] and [metadata], the DELETE of [delete_host] carries the id
    in its URL and no body; neither carries a version. *)
Theorem push_payload (data : value) (id : string) (e : env) (w : world) :
  (remote_calls (events_of (create_host data) e w) = [] \/
   exists j,
     remote_calls (events_of (create_host data) e w)
     = [EvHttp POST (kessel_base e ++ "/api/inventory/v1beta2/resources")
          (Some (VDict j)) 5 (remote e)] /\
     dom j = kessel_resource_keys /\
     j !! "resource_id" = Some (VStr (fresh_uuid e)) /\
     j !! "version" = None) /\
  (remote_calls (events_of (delete_host id) e w) = [] \/
   remote_calls (events_of (delete_host id) e w)
   = [EvHttp DELETE
        (kessel_base e ++ "/api/inventory/v1/resources/hbi/host/" ++ id)
        None 5 (remote e)]).
Proof.
  split; [| apply delete_host_calls].
  destruct (create_host_calls data e w) as [H|(ws & dn & cf & H)];
    [left; exact H | right].
  eexists. split; [exact H|]. split; [apply kessel_resource_dom|].
  split.
  - unfold kessel_resource.
    rewrite lookup_insert_ne by discriminate. apply lookup_insert_eq.
  - apply not_elem_of_dom. rewrite kessel_resource_dom.
    unfold kessel_resource_keys.
    rewrite !elem_of_union, !elem_of_singleton. intuition discriminate.
Qed.

(** ** Handlers that never call out *)

Section Emits.

Context (P : event -> Prop).
Hypothesis local_ok : forall ev, is_remote_call ev = false -> P ev.

Lemma emits_ret {A} (a : A) : emits P (ret a).
Proof.
  intros e w. exists []. rewrite app_nil_r. split; [reflexivity | constructor].
Qed.

Lemma emits_raise {A} (x : exn) : emits P (@raise A x).
Proof.
  intros e w. exists []. rewrite app_nil_r. split; [reflexivity | constructor].
Qed.

Lemma emits_lift {A} (r : exn + A) : emits P (lift r).
Proof. destruct r; [apply emits_raise | apply emits_ret]. Qed.

Lemma emits_ask : emits P ask.
Proof.
  intros e w. exists []. rewrite app_nil_r. split; [reflexivity | constructor].
Qed.

Lemma emits_guard (o : option exn) : emits P (guard_exn o).
Proof. destruct o; [apply emits_raise | apply emits_ret]. Qed.

Lemma emits_emit (ev : event) : is_remote_call ev = false -> emits P (emit ev).
Proof.
  intros Hev e w. exists [ev]. split; [reflexivity|].
  constructor; [auto | constructor].
Qed.

Lemma emits_bind {A B} (m : M A) (k : A -> M B) :
  emits P m -> (forall a, emits P (k a)) -> emits P (bind m k).
Proof.
  intros Hm Hk e w. unfold bind.
  destruct (Hm e w) as (n1 & H1 & F1).
  destruct (m e w) as [[x|a] w1]; cbn [snd] in *.
  - exists n1. auto.
  - destruct (Hk a e w1) as (n2 & H2 & F2).
    exists (n1 ++ n2)%list. rewrite H2, H1, app_assoc.
    split; [reflexivity | by apply Forall_app].
Qed.

Lemma emits_try_except {A} (body : M A) (catch : exn -> bool)
    (handler : exn -> M A) :
  emits P body -> (forall x, emits P (handler x)) ->
  emits P (try_except body catch handler).
Proof.
  intros Hb Hh e w. unfold try_except.
  destruct (Hb e w) as (n1 & H1 & F1).
  destruct (body e w) as [[x|a] w1]; cbn [snd] in *.
  - destruct (catch x).
    + destruct (Hh x e w1) as (n2 & H2 & F2).
      exists (n1 ++ n2)%list. rewrite H2, H1, app_assoc.
      split; [reflexivity | by apply Forall_app].
    + exists n1. auto.
  - exists n1. auto.
Qed.

Lemma emits_uuid4 : emits P uuid4.
Proof. apply emits_bind; [apply emits_ask | intros; apply emits_ret]. Qed.

Lemma emits_datetime_now : emits P datetime_now.
Proof.
  intros e w. exists []. rewrite app_nil_r. split; [reflexivity | constructor].
Qed.

Lemma emits_get_db_connection : emits P get_db_connection.
Proof.
  apply emits_bind; [apply emits_ask | intros e0].
  apply emits_bind; [apply emits_guard | intros _].
  apply emits_bind; [by apply emits_emit | intros _].
  intros e w. exists []. rewrite app_nil_r. split; [reflexivity | constructor].
Qed.

Lemma emits_execute (conn : connection) (s : stmt) : emits P (execute conn s).
Proof.
  apply emits_bind; [apply emits_ask | intros e0].
  apply emits_bind; [apply emits_guard | intros _].
  apply emits_bind; [by apply emits_emit | intros _].
  apply emits_ret.
Qed.

Lemma emits_fetchone (cur : cursor) : emits P (fetchone cur).
Proof.
  unfold fetchone. destruct (rows cur); [apply emits_raise | apply emits_ret].
Qed.

Lemma emits_commit (conn : connection) : emits P (commit conn).
Proof.
  apply emits_bind; [apply emits_ask | intros e0].
  apply emits_bind; [apply emits_guard | intros _].
  apply emits_bind; [| intros _; by apply emits_emit].
  intros e w. exists []. rewrite app_nil_r. split; [reflexivity | constructor].
Qed.

Lemma emits_cur_close : emits P cur_close.
Proof.
  apply emits_bind; [apply emits_ask | intros e0].
  apply emits_bind; [apply emits_guard | intros _; by apply emits_emit].
Qed.

Lemma emits_conn_close : emits P conn_close.
Proof.
  apply emits_bind; [apply emits_ask | intros e0].
  apply emits_bind; [apply emits_guard | intros _; by apply emits_emit].
Qed.

Lemma emits_log (lvl : level) (tpl : string) (args : list value) :
  emits P (log lvl tpl args).
Proof. by apply emits_emit. Qed.

Lemma emits_collect_update (data : value) (k : string)
    (acc : list (string * value)) :
  emits P (collect_update data k acc).
Proof.
  apply emits_bind; [apply emits_lift | intros present].
  destruct present; [| apply emits_ret].
  apply emits_bind; [apply emits_lift | intros; apply emits_ret].
Qed.

End Emits.

(** Walk down a handler: every call it is built from keeps [emits]. *)
Ltac emits_walk :=
  repeat lazymatch goal with
  | |- emits _ (bind _ _) => apply emits_bind; [| intros ?]
  | |- emits _ (try_except _ _ _) => apply emits_try_except; [| intros ?]
  | |- emits _ (ret _) => apply emits_ret
  | |- emits _ (lift _) => apply emits_lift
  | |- emits _ uuid4 => apply emits_uuid4
  | |- emits _ datetime_now => apply emits_datetime_now
  | |- emits _ get_db_connection => apply emits_get_db_connection
  | |- emits _ (execute _ _) => apply emits_execute
  | |- emits _ (fetchone _) => apply emits_fetchone
  | |- emits _ (commit _) => apply emits_commit
  | |- emits _ cur_close => apply emits_cur_close
  | |- emits _ conn_close => apply emits_conn_close
  | |- emits _ (log _ _ _) => apply emits_log
  | |- emits _ (collect_update _ _ _) => apply emits_collect_update
  | |- emits _ (if ?b then _ else _) => destruct b
  | |- emits _ (match ?x with _ => _ end) => destruct x
  | |- forall _, _ => intros ?
  end; auto.

Lemma emits_no_calls {A} (m : M A) (e : env) (w : world) :
  emits not_remote m -> remote_calls (events_of m e w) = [].
Proof.
  intros Hm. destruct (Hm e w) as (new & Ht & Hnew).
  unfold events_of, new_events. rewrite Ht, drop_app_length. clear Ht.
  induction Hnew as [|ev evs Hev _ IH]; [reflexivity|].
  unfold remote_calls in *. cbn [List.filter]. rewrite Hev. exact IH.
Qed.

Lemma update_host_quiet id data : emits not_remote (update_host id data).
Proof. unfold update_host. emits_walk. Qed.

Lemma create_host_group_quiet data : emits not_remote (create_host_group data).
Proof. unfold create_host_group. emits_walk. Qed.

Lemma create_workspace_quiet data : emits not_remote (create_workspace data).
Proof. unfold create_workspace. emits_walk. Qed.

Lemma delete_workspace_quiet id : emits not_remote (delete_workspace id).
Proof. unfold delete_workspace. emits_walk. Qed.

Lemma create_role_quiet data : emits not_remote (create_role data).
Proof. unfold create_role. emits_walk. Qed.

Lemma logs_not_remote (l : list event) :
  forallb is_log l = true -> remote_calls l = [].
Proof.
  induction l as [|ev l IH]; [reflexivity|].
  cbn [forallb]. intros [Hev Hl]%andb_true_iff.
  unfold remote_calls in *. cbn [List.filter].
  destruct ev; try discriminate Hev. auto.
Qed.

(** C5, as stated, at concrete requests: a workspace, a role and a host
    group are created and answered 201 while the inventory API is up, and
    none of the three runs contains an HTTP call. *)
Lemma rbac_and_group_writes_not_pushed :
  (exists r, (create_workspace body_w1 env_up w_empty).1 = inr r /\
             status r = 201%Z /\
             remote_calls (events_of (create_workspace body_w1) env_up w_empty)
             = []) /\
  (exists r, (create_role body_role env_up w_empty).1 = inr r /\
             status r = 201%Z /\
             remote_calls (events_of (create_role body_role) env_up w_empty)
             = []) /\
  (exists r, (create_host_group body_group env_up w_empty).1 = inr r /\
             status r = 201%Z /\
             remote_calls (events_of (create_host_group body_group) env_up w_empty)
             = []).
Proof.
  repeat split; eexists; (split; [vm_compute; reflexivity|]);
    split; vm_compute; reflexivity.
Qed.

(** C5, amended.  Of the write handlers only [create_host] and
    [delete_host] push: a run of one of them that answers 201, respectively
    204, contains exactly one HTTP call; [update_host],
    [create_host_group], [create_workspace], [delete_workspace] and
    [create_role] make no HTTP call on any request in any environment. *)
Theorem push_only_on_host_create_delete (data : value) (id : string)
    (e : env) (w : world) :
  remote_calls (events_of (update_host id data) e w) = [] /\
  remote_calls (events_of (create_host_group data) e w) = [] /\
  remote_calls (events_of (create_workspace data) e w) = [] /\
  remote_calls (events_of (delete_workspace id) e w) = [] /\
  remote_calls (events_of (create_role data) e w) = [] /\
  (forall r w',
     create_host data e w = (inr r, w') -> status r = 201%Z ->
     exists json,
       remote_calls (new_events w w')
       = [EvHttp POST (kessel_base e ++ "/api/inventory/v1beta2/resources")
            json 5 (remote e)]) /\
  (forall r w',
     delete_host id e w = (inr r, w') -> status r = 204%Z ->
     remote_calls (new_events w w')
     = [EvHttp DELETE
          (kessel_base e ++ "/api/inventory/v1/resources/hbi/host/" ++ id)
          None 5 (remote e)]).
Proof.
  split; [apply emits_no_calls, update_host_quiet|].
  split; [apply emits_no_calls, create_host_group_quiet|].
  split; [apply emits_no_calls, create_workspace_quiet|].
  split; [apply emits_no_calls, delete_workspace_quiet|].
  split; [apply emits_no_calls, create_role_quiet|].
  split.
  - intros r w' Hrun Hst.
    destruct (create_host_201 _ _ _ _ _ Hrun Hst)
      as (d & lg & _ & _ & _ & _ & _ & _ & _ & Hlg & Htr).
    unfold new_events. rewrite Htr, drop_app_length.
    eexists. destruct lg; try discriminate Hlg. reflexivity.
  - intros r w' Hrun Hst.
    destruct (delete_host_204 _ _ _ _ _ Hrun Hst)
      as (post & _ & _ & _ & _ & _ & _ & Hpost & Htr).
    unfold new_events. rewrite Htr, drop_app_length.
    unfold remote_calls. rewrite List.filter_app. cbn [List.filter is_remote_call].
    fold (remote_calls post). by rewrite (logs_not_remote _ Hpost).
Qed.

Lemma push_only_on_host_create_delete_witness :
  (exists json,
     remote_calls (new_events w_versioned
                     (create_host body_h1 env_up w_versioned).2)
     = [EvHttp POST
          (kessel_base env_up ++ "/api/inventory/v1beta2/resources")
          json 5 (remote env_up)]) /\
  remote_calls (new_events w_versioned (delete_host "h-1" env_up w_versioned).2)
  = [EvHttp DELETE
       (kessel_base env_up ++ "/api/inventory/v1/resources/hbi/host/" ++ "h-1")
       None 5 (remote env_up)].
Proof.
  destruct (push_only_on_host_create_delete body_h1 "h-1" env_up w_versioned)
    as (_ & _ & _ & _ & _ & Hc & Hd).
  split.
  - apply (Hc (jsonify (assign (host_columns env_up
                                  {[ "display_name" := VStr "h1" ]} 0) ∅) 201)).
    + vm_compute. reflexivity.
    + reflexivity.
  - apply (Hd (Response (VStr "") 204)).
    + vm_compute. reflexivity.
    + reflexivity.
Defined.

(** ** Failed writes *)

(** C6, as stated, at concrete requests: a workspace and a host are
    created and answered 201; each transaction consists of the one [INSERT]
    into the entity's table, and the committed store holds that one row in
    that one table: no change record was appended with the mutation. *)
Lemma write_without_change_record :
  (create_workspace body_w1 env_up w_empty = (inr r_w1, w_w1) /\
   status r_w1 = 201 /\
   statements (new_events w_empty w_w1)
   = [EvExecute (Insert workspaces_table
                   (workspace_columns env_up {[ "name" := VStr "w1" ]} 0))] /\
   dom (store w_w1) = {[ workspaces_table ]} /\
   List.map VDict (table (store w_w1) workspaces_table) = [body r_w1]) /\
  (create_host body_h1 env_up w_empty = (inr r_h1, w_h1) /\
   status r_h1 = 201 /\
   statements (new_events w_empty w_h1)
   = [EvExecute (Insert hosts_table
                   (host_columns env_up {[ "display_name" := VStr "h1" ]} 0))] /\
   dom (store w_h1) = {[ hosts_table ]} /\
   List.map VDict (table (store w_h1) hosts_table) = [body r_h1]).
Proof.
  repeat match goal with |- _ /\ _ => split end; vm_compute; reflexivity.
Qed.

(** C6, amended.  The handlers append no change record of their own: a
    request to [create_host] or [create_workspace] runs at most one
    statement, the [INSERT] into its own table.  And a write request that
    fails before its commit is attempted (it is answered 400 or 404, or the
    connect or the execute raised) leaves the committed rows exactly as
    they were before the request. *)
Theorem early_failure_keeps_store (e : env) (w : world) :
  (forall (r : response) (w' : world),
     status r = 400 \/ status r = 404 \/
     is_Some (connect_exn e) \/ is_Some (execute_exn e) ->
     (forall data, create_host data e w = (inr r, w') -> store w' = store w) /\
     (forall id data,
        update_host id data e w = (inr r, w') -> store w' = store w) /\
     (forall id, delete_host id e w = (inr r, w') -> store w' = store w) /\
     (forall data,
        create_host_group data e w = (inr r, w') -> store w' = store w) /\
     (forall data,
        create_workspace data e w = (inr r, w') -> store w' = store w) /\
     (forall id, delete_workspace id e w = (inr r, w') -> store w' = store w) /\
     (forall data, create_role data e w = (inr r, w') -> store w' = store w)) /\
  (forall data,
     statements (events_of (create_host data) e w) = [] \/
     exists cols,
       statements (events_of (create_host data) e w)
       = [EvExecute (Insert hosts_table cols)]) /\
  (forall data,
     statements (events_of (create_workspace data) e w) = [] \/
     exists cols,
       statements (events_of (create_workspace data) e w)
       = [EvExecute (Insert workspaces_table cols)]).
Proof.
  split; [| split; intros data;
            [apply create_host_statements | apply create_workspace_statements]].
  intros r w' Hpre.
  repeat split.
  - intros data. unfold create_host. unfold_monad. cbv [get].
    destruct data; paths ltac:(early_leaf Hpre).
  - intros id data. unfold update_host. unfold_monad. cbv [contains getitem].
    destruct data; paths ltac:(early_leaf Hpre).
  - intros id. unfold delete_host. unfold_monad.
    paths ltac:(early_leaf Hpre).
  - intros data. unfold create_host_group. unfold_monad. cbv [get].
    destruct data; paths ltac:(early_leaf Hpre).
  - intros data. unfold create_workspace. unfold_monad. cbv [get].
    destruct data; paths ltac:(early_leaf Hpre).
  - intros id. unfold delete_workspace. unfold_monad.
    paths ltac:(early_leaf Hpre).
  - intros data. unfold create_role. unfold_monad. cbv [get].
    destruct data; paths ltac:(early_leaf Hpre).
Qed.

Lemma early_failure_keeps_store_witness :
  store (create_workspace body_w1 env_no_db w_versioned).2 = store w_versioned /\
  store (update_host "h-1" body_other env_up w_versioned).2 = store w_versioned.
Proof.
  destruct (early_failure_keeps_store env_no_db w_versioned) as [H _].
  destruct (early_failure_keeps_store env_up w_versioned) as [H' _].
  split.
  - destruct (H (jsonify (error_body "could not connect to server") 500)
                (create_workspace body_w1 env_no_db w_versioned).2)
      as (_ & _ & _ & _ & Hws & _).
    + right. right. left. vm_compute. eauto.
    + apply (Hws body_w1). vm_compute. reflexivity.
  - destruct (H' (jsonify (error_body "No fields to update") 400)
                 (update_host "h-1" body_other env_up w_versioned).2)
      as (_ & Hupd & _).
    + left. reflexivity.
    + apply (Hupd "h-1" body_other). vm_compute. reflexivity.
Defined.

(** ** Versions *)

(** C4, as stated, at concrete requests: with a schema that has no
    [version] column the created host comes back without one; with a stored
    row whose [version] is 1 a successful update comes back with [version]
    still 1. *)
Lemma version_not_assigned :
  (exists host,
     (create_host body_h1 env_up w_empty).1 = inr (jsonify host 201) /\
     host !! "version" = None) /\
  (exists host,
     (update_host "h-1" body_rename env_up w_versioned).1
     = inr (jsonify host 200) /\
     versioned_host !! "version" = Some (VInt 1) /\
     host !! "display_name" = Some (VStr "beta") /\
     host !! "version" = Some (VInt 1)).
Proof.
  split.
  - exists (assign (host_columns env_up {[ "display_name" := VStr "h1" ]} 0) ∅).
    split; vm_compute; reflexivity.
  - exists (assign [("display_name", VStr "beta");
                    ("updated_at", VDatetime 1000)] versioned_host).
    repeat split; vm_compute; reflexivity.
Qed.

(** C4, amended.  No handler assigns or increments a version.  The row
    a successful create returns holds, in every column its [INSERT] does not
    name (a [version] column included), the default of the schema; the row
    a successful [update_host] returns is a stored row with that id in which
    only [display_name], [canonical_facts] and [updated_at] can differ, so
    any other column, [version] included, has its stored value. *)
Theorem version_left_to_schema (e : env) (w : world)
    (r : response) (w' : world) (c : string) :
  (forall data,
     create_host data e w = (inr r, w') -> status r = 201%Z ->
     ~ In c host_insert_columns ->
     exists host,
       body r = VDict host /\
       host !! c = column_defaults e hosts_table !! c) /\
  (forall data,
     create_workspace data e w = (inr r, w') -> status r = 201%Z ->
     ~ In c workspace_insert_columns ->
     exists ws,
       body r = VDict ws /\
       ws !! c = column_defaults e workspaces_table !! c) /\
  (forall id data,
     update_host id data e w = (inr r, w') -> status r = 200%Z ->
     ~ In c update_columns ->
     exists old host,
       In old (table (store w) hosts_table) /\
       id_matches id old = true /\
       body r = VDict host /\
       host !! c = old !! c).
Proof.
  repeat split.
  - intros data Hrun Hst Hc.
    destruct (create_host_201 _ _ _ _ _ Hrun Hst)
      as (d & lg & _ & _ & _ & _ & _ & -> & _).
    eexists. split; [reflexivity|].
    apply assign_lookup_other. unfold host_columns.
    repeat constructor; cbn [fst]; intros <-; apply Hc; cbn; tauto.
  - intros data Hrun Hst Hc.
    destruct (create_workspace_201 _ _ _ _ _ Hrun Hst) as (d & _ & ->).
    eexists. split; [reflexivity|].
    apply assign_lookup_other. unfold workspace_columns.
    repeat constructor; cbn [fst]; intros <-; apply Hc; cbn; tauto.
  - intros id data Hrun Hst Hc.
    destruct (update_host_200 _ _ _ _ _ _ Hrun Hst)
      as (old & sets & Hin & Hid & -> & Hsets).
    exists old. eexists. repeat split; try assumption.
    apply assign_lookup_other.
    eapply Forall_impl; [exact Hsets|].
    intros cv Hcv <-. exact (Hc Hcv).
Qed.

Lemma version_left_to_schema_witness :
  exists old host,
    In old (table (store w_versioned) hosts_table) /\
    id_matches "h-1" old = true /\
    body (jsonify (assign [("display_name", VStr "beta");
                           ("updated_at", VDatetime 1000)] versioned_host) 200)
    = VDict host /\
    host !! "version" = old !! "version".
Proof.
  destruct (version_left_to_schema env_up w_versioned
              (jsonify (assign [("display_name", VStr "beta");
                                ("updated_at", VDatetime 1000)]
                               versioned_host) 200)
              (update_host "h-1" body_rename env_up w_versioned).2
              "version") as (_ & _ & Hupd).
  apply (Hupd "h-1" body_rename).
  - vm_compute. reflexivity.
  - reflexivity.
  - cbn. intuition discriminate.
Defined.

(** * Reads, round trips and edges *)

Ltac unfold_reads :=
  cbv [execute_select fetchall fetchone_or_none run_query]; unfold_monad.

Ltac split_read :=
  match goal with
  | |- context [head (List.filter ?f ?l)] =>
      destruct (List.filter f l) eqn:?; cbn [head]
  | |- context [truthy (VDict ?h)] => destruct (truthy (VDict h)) eqn:?
  end; tidy.

Ltac rpaths leaf := tidy; repeat first [ leaf | split_read | split_path ].

Ltac answers_leaf :=
  solve [ eexists; split;
          [ reflexivity | cbn [In status jsonify]; auto 10 ] ].

(** ** Every request is answered *)

(** X1.  No handler lets an exception escape: every request, whatever
    its body and whatever the database or the remote does, is answered, and
    the status is one of the few the handler can produce (201/400/500 for a
    create, 200/400/404/500 for an update, 204/404/500 for a delete,
    200/404/500 for a get, 200/500 for a list, 200/503 for health). *)
Theorem every_request_is_answered :
  (forall data, answers (create_host data) [201; 400; 500]) /\
  (forall id data, answers (update_host id data) [200; 400; 404; 500]) /\
  (forall id, answers (delete_host id) [204; 404; 500]) /\
  (forall data, answers (create_host_group data) [201; 400; 500]) /\
  (forall id, answers (get_host id) [200; 404; 500]) /\
  (forall ws, answers (list_hosts ws) [200; 500]) /\
  answers list_host_groups [200; 500] /\
  answers HostInventory.health [200; 503] /\
  (forall data, answers (create_workspace data) [201; 400; 500]) /\
  (forall id, answers (delete_workspace id) [204; 404; 500]) /\
  (forall data, answers (create_role data) [201; 400; 500]) /\
  (forall id, answers (get_workspace id) [200; 404; 500]) /\
  answers list_workspaces [200; 500] /\
  (forall ws, answers (list_roles ws) [200; 500]) /\
  answers Rbac.health [200; 503].
Proof.
  repeat split; intros; intros e w.
  - unfold create_host. unfold_monad. cbv [get].
    destruct data; rpaths answers_leaf.
  - unfold update_host. unfold_monad. cbv [contains getitem].
    destruct data; rpaths answers_leaf.
  - unfold delete_host. unfold_monad. rpaths answers_leaf.
  - unfold create_host_group. unfold_monad. cbv [get].
    destruct data; rpaths answers_leaf.
  - unfold get_host. unfold_reads. rpaths answers_leaf.
  - unfold list_hosts. unfold_reads. rpaths answers_leaf.
  - unfold list_host_groups. unfold_reads. rpaths answers_leaf.
  - unfold HostInventory.health. unfold_monad. rpaths answers_leaf.
  - unfold create_workspace. unfold_monad. cbv [get].
    destruct data; rpaths answers_leaf.
  - unfold delete_workspace. unfold_monad. rpaths answers_leaf.
  - unfold create_role. unfold_monad. cbv [get].
    destruct data; rpaths answers_leaf.
  - unfold get_workspace. unfold_reads. rpaths answers_leaf.
  - unfold list_workspaces. unfold_reads. rpaths answers_leaf.
  - unfold list_roles. unfold_reads. rpaths answers_leaf.
  - unfold Rbac.health. unfold_monad. rpaths answers_leaf.
Qed.

(** ** Reads *)

Ltac safe_leaf :=
  solve [ split; [reflexivity|]; split; [reflexivity|];
          rewrite ?drop_app_length, ?drop_all; reflexivity ].

(** X2.  The GET handlers only read: the committed rows and the clock
    are untouched, and all they leave in the trace is the connect and the
    closes; no commit, no HTTP call, and, unlike the write handlers, no log
    line even when they answer 500. *)
Theorem reads_are_safe (e : env) (w : world) :
  let safe (m : M response) :=
    store (m e w).2 = store w /\
    ticks (m e w).2 = ticks w /\
    forallb is_session (events_of m e w) = true in
  (forall id, safe (get_host id)) /\
  (forall ws, safe (list_hosts ws)) /\
  safe list_host_groups /\
  safe HostInventory.health /\
  (forall id, safe (get_workspace id)) /\
  safe list_workspaces /\
  (forall ws, safe (list_roles ws)) /\
  safe Rbac.health.
Proof.
  cbv zeta. unfold events_of, new_events.
  repeat split; intros.
  all: try match goal with
       | |- context [get_host] => unfold get_host
       | |- context [list_hosts] => unfold list_hosts
       | |- context [list_host_groups] => unfold list_host_groups
       | |- context [HostInventory.health] => unfold HostInventory.health
       | |- context [get_workspace] => unfold get_workspace
       | |- context [list_workspaces] => unfold list_workspaces
       | |- context [list_roles] => unfold list_roles
       | |- context [Rbac.health] => unfold Rbac.health
       end; unfold_reads.
  all: rpaths ltac:(solve [ reflexivity
                         | rewrite ?drop_app_length, ?drop_all; reflexivity ]).
Qed.

#[global] Instance newest_first_total : Total newest_first.
Proof.
  intros r1 r2. unfold newest_first.
  destruct (created_at r1), (created_at r2); auto. lia.
Qed.

#[global] Instance newest_first_trans : Transitive newest_first.
Proof.
  intros r1 r2 r3. unfold newest_first.
  destruct (created_at r1), (created_at r2), (created_at r3);
    intros; try tauto; lia.
Qed.

(** What a list endpoint answers from table [tbl] when the database
    calls return. *)
Lemma listing_of (ws : option string) (tbl : list row) :
  let rows := if truthy (arg_value ws)
              then merge_sort newest_first
                     (List.filter (column_is "workspace_id" (default "" ws)) tbl)
              else merge_sort newest_first tbl in
  rows ≡ₚ selection ws tbl /\
  StronglySorted newest_first rows /\
  listing rows !! "count" = Some (VInt (Z.of_nat (length (selection ws tbl)))).
Proof.
  cbv zeta.
  assert (Hcount : forall rows sel : list row,
            rows ≡ₚ sel ->
            listing rows !! "count" = Some (VInt (Z.of_nat (length sel)))).
  { intros rows sel Hp. unfold listing.
    rewrite lookup_insert_ne by discriminate.
    rewrite lookup_singleton_eq. by rewrite (Permutation_length Hp). }
  destruct ws as [[|a s]|]; cbn [arg_value truthy String.eqb negb selection default from_option id];
    (split; [apply merge_sort_Permutation|]);
    (split; [apply StronglySorted_merge_sort; apply _|]);
    apply Hcount, merge_sort_Permutation.
Qed.

Lemma list_hosts_run (ws : option string) (e : env) (w : world) :
  read_ok e ->
  list_hosts ws e w
  = (inr (jsonify (listing (listed_rows ws (table (store w) hosts_table))) 200),
     World (store w) (ticks w)
           (trace w ++ [EvConnect; EvCursorClose; EvConnClose])).
Proof.
  intros (Hc & He & Hcc & Hnc).
  unfold list_hosts, listed_rows. unfold_reads. rewrite Hc. tidy.
  destruct (truthy (arg_value ws)); tidy; rewrite He; tidy;
    rewrite Hcc; tidy; rewrite Hnc; tidy; reflexivity.
Qed.

Lemma list_roles_run (ws : option string) (e : env) (w : world) :
  read_ok e ->
  list_roles ws e w
  = (inr (jsonify (listing (listed_rows ws (table (store w) roles_table))) 200),
     World (store w) (ticks w)
           (trace w ++ [EvConnect; EvCursorClose; EvConnClose])).
Proof.
  intros (Hc & He & Hcc & Hnc).
  unfold list_roles, listed_rows. unfold_reads. rewrite Hc. tidy.
  destruct (truthy (arg_value ws)); tidy; rewrite He; tidy;
    rewrite Hcc; tidy; rewrite Hnc; tidy; reflexivity.
Qed.

Lemma list_host_groups_run (e : env) (w : world) :
  read_ok e ->
  list_host_groups e w
  = (inr (jsonify (listing (listed_rows None
                              (table (store w) host_groups_table))) 200),
     World (store w) (ticks w)
           (trace w ++ [EvConnect; EvCursorClose; EvConnClose])).
Proof.
  intros (Hc & He & Hcc & Hnc).
  unfold list_host_groups, listed_rows. unfold_reads. rewrite Hc. tidy.
  rewrite He; tidy; rewrite Hcc; tidy; rewrite Hnc; tidy; reflexivity.
Qed.

Lemma list_workspaces_run (e : env) (w : world) :
  read_ok e ->
  list_workspaces e w
  = (inr (jsonify (listing (listed_rows None
                              (table (store w) workspaces_table))) 200),
     World (store w) (ticks w)
           (trace w ++ [EvConnect; EvCursorClose; EvConnClose])).
Proof.
  intros (Hc & He & Hcc & Hnc).
  unfold list_workspaces, listed_rows. unfold_reads. rewrite Hc. tidy.
  rewrite He; tidy; rewrite Hcc; tidy; rewrite Hnc; tidy; reflexivity.
Qed.

(** X3.  With the database answering, a list endpoint returns 200 with
    [data] a rearrangement of the selected rows, newest [created_at] first,
    and [count] their number.  The selected rows are the whole table, or,
    for [list_hosts] and [list_roles] with a non-empty [workspace_id], the
    rows of that workspace; an empty [workspace_id] selects like a missing
    one. *)
Theorem listing_sorted_permutation (e : env) (w : world) :
  read_ok e ->
  let listed (m : M response) (sel : list row) :=
    exists rows,
      m e w = (inr (jsonify (listing rows) 200),
               World (store w) (ticks w)
                     (trace w ++ [EvConnect; EvCursorClose; EvConnClose])) /\
      rows ≡ₚ sel /\
      StronglySorted newest_first rows /\
      listing rows !! "count" = Some (VInt (Z.of_nat (length sel))) in
  (forall ws,
     listed (list_hosts ws) (selection ws (table (store w) hosts_table))) /\
  (forall ws,
     listed (list_roles ws) (selection ws (table (store w) roles_table))) /\
  listed list_host_groups (table (store w) host_groups_table) /\
  listed list_workspaces (table (store w) workspaces_table).
Proof.
  intros Hok. cbv zeta. repeat split.
  - intros ws. eexists. split; [by apply list_hosts_run | apply (listing_of ws)].
  - intros ws. eexists. split; [by apply list_roles_run | apply (listing_of ws)].
  - eexists. split; [by apply list_host_groups_run | apply (listing_of None)].
  - eexists. split; [by apply list_workspaces_run | apply (listing_of None)].
Qed.

Lemma listing_sorted_permutation_witness :
  exists rows,
    list_hosts (Some "ws-1") env_up w_three_hosts
    = (inr (jsonify (listing rows) 200),
       World (store w_three_hosts) (ticks w_three_hosts)
             (trace w_three_hosts ++ [EvConnect; EvCursorClose; EvConnClose])) /\
    rows ≡ₚ [host_a; host_c] /\
    StronglySorted newest_first rows /\
    listing rows !! "count" = Some (VInt 2).
Proof.
  destruct (listing_sorted_permutation env_up w_three_hosts) as (H & _).
  - repeat split.
  - assert (Hsel : selection (Some "ws-1")
                     (table (store w_three_hosts) hosts_table)
                   = [host_a; host_c]) by (vm_compute; reflexivity).
    destruct (H (Some "ws-1")) as (rows & Hrun & Hp & Hs & Hcnt).
    rewrite Hsel in Hp, Hcnt. exists rows. auto.
Defined.

(** ** Looking a row up *)

Lemma table_insert_eq (db : database) (t : string) (l : list row) :
  table (<[t := l]> db) t = l.
Proof. unfold table. by rewrite lookup_insert_eq. Qed.

Lemma table_insert_ne (db : database) (t t' : string) (l : list row) :
  t <> t' -> table (<[t := l]> db) t' = table db t'.
Proof. intros. unfold table. by rewrite lookup_insert_ne. Qed.

Lemma truthy_row (r : row) (k : string) (v : value) :
  r !! k = Some v -> truthy (VDict r) = true.
Proof.
  intros Hk. cbn [truthy]. rewrite bool_decide_eq_false_2; [reflexivity|].
  intros ->. by rewrite lookup_empty in Hk.
Qed.

Lemma id_matches_lookup (id : string) (r : row) :
  id_matches id r = true -> r !! "id" = Some (VStr id).
Proof.
  unfold id_matches. destruct (r !! "id") as [[]|]; try discriminate.
  by intros ->%String.eqb_eq.
Qed.

Lemma lookup_id_matches (id : string) (r : row) :
  r !! "id" = Some (VStr id) -> id_matches id r = true.
Proof. unfold id_matches. intros ->. apply String.eqb_refl. Qed.

Lemma filter_head_matches {A} (f : A -> bool) (l : list A) (x : A) (xs : list A) :
  List.filter f l = x :: xs -> f x = true /\ In x l.
Proof.
  intros H. assert (Hin : In x (List.filter f l)) by (rewrite H; by left).
  apply filter_In in Hin. tauto.
Qed.

(** [get_host] on a store that has a row with the id: the first one. *)
Lemma get_host_found (id : string) (e : env) (w : world) (h : row)
    (rest : list row) :
  read_ok e ->
  List.filter (id_matches id) (table (store w) hosts_table) = h :: rest ->
  get_host id e w
  = (inr (jsonify h 200),
     World (store w) (ticks w)
           (trace w ++ [EvConnect; EvCursorClose; EvConnClose])).
Proof.
  intros (Hc & He & Hcc & Hnc) Hf.
  destruct (filter_head_matches _ _ _ _ Hf) as [Hid _].
  apply id_matches_lookup, truthy_row in Hid.
  unfold get_host. unfold_reads. rewrite Hc; tidy. rewrite He; tidy.
  rewrite Hf. cbn [head]. tidy. rewrite Hcc; tidy. rewrite Hnc; tidy.
  rewrite Hid. reflexivity.
Qed.

Lemma get_host_missing (id : string) (e : env) (w : world) :
  read_ok e ->
  absent hosts_table id (store w) ->
  get_host id e w
  = (inr (jsonify (error_body "Host not found") 404),
     World (store w) (ticks w)
           (trace w ++ [EvConnect; EvCursorClose; EvConnClose])).
Proof.
  intros (Hc & He & Hcc & Hnc) Hf. unfold absent in Hf.
  unfold get_host. unfold_reads. rewrite Hc; tidy. rewrite He; tidy.
  rewrite Hf. cbn [head]. tidy. rewrite Hcc; tidy. rewrite Hnc; tidy.
  reflexivity.
Qed.

Lemma get_workspace_found (id : string) (e : env) (w : world) (h : row)
    (rest : list row) :
  read_ok e ->
  List.filter (id_matches id) (table (store w) workspaces_table) = h :: rest ->
  get_workspace id e w
  = (inr (jsonify h 200),
     World (store w) (ticks w)
           (trace w ++ [EvConnect; EvCursorClose; EvConnClose])).
Proof.
  intros (Hc & He & Hcc & Hnc) Hf.
  destruct (filter_head_matches _ _ _ _ Hf) as [Hid _].
  apply id_matches_lookup, truthy_row in Hid.
  unfold get_workspace. unfold_reads. rewrite Hc; tidy. rewrite He; tidy.
  rewrite Hf. cbn [head]. tidy. rewrite Hcc; tidy. rewrite Hnc; tidy.
  rewrite Hid. reflexivity.
Qed.

Lemma get_workspace_missing (id : string) (e : env) (w : world) :
  read_ok e ->
  absent workspaces_table id (store w) ->
  get_workspace id e w
  = (inr (jsonify (error_body "Workspace not found") 404),
     World (store w) (ticks w)
           (trace w ++ [EvConnect; EvCursorClose; EvConnClose])).
Proof.
  intros (Hc & He & Hcc & Hnc) Hf. unfold absent in Hf.
  unfold get_workspace. unfold_reads. rewrite Hc; tidy. rewrite He; tidy.
  rewrite Hf. cbn [head]. tidy. rewrite Hcc; tidy. rewrite Hnc; tidy.
  reflexivity.
Qed.

(** X4.  With the database answering, [get_host] and [get_workspace]
    answer 404 exactly when no row has the id; otherwise the answer is 200
    with a stored row of that id. *)
Theorem get_404_iff_absent (id : string) (e : env) (w : world) :
  read_ok e ->
  (forall r, (get_host id e w).1 = inr r ->
     (status r = 404 <-> absent hosts_table id (store w)) /\
     (status r = 404 \/
      exists h, In h (table (store w) hosts_table) /\
                id_matches id h = true /\ r = jsonify h 200)) /\
  (forall r, (get_workspace id e w).1 = inr r ->
     (status r = 404 <-> absent workspaces_table id (store w)) /\
     (status r = 404 \/
      exists h, In h (table (store w) workspaces_table) /\
                id_matches id h = true /\ r = jsonify h 200)).
Proof.
  intros Hok. split; intros r Hr.
  - destruct (List.filter (id_matches id) (table (store w) hosts_table))
      as [|h rest] eqn:Hf.
    + rewrite (get_host_missing id e w Hok Hf) in Hr.
      injection Hr as <-. unfold absent. rewrite Hf. cbn. tauto.
    + rewrite (get_host_found id e w h rest Hok Hf) in Hr.
      injection Hr as <-. unfold absent. rewrite Hf. cbn.
      destruct (filter_head_matches _ _ _ _ Hf).
      split; [split; discriminate | right; eauto].
  - destruct (List.filter (id_matches id) (table (store w) workspaces_table))
      as [|h rest] eqn:Hf.
    + rewrite (get_workspace_missing id e w Hok Hf) in Hr.
      injection Hr as <-. unfold absent. rewrite Hf. cbn. tauto.
    + rewrite (get_workspace_found id e w h rest Hok Hf) in Hr.
      injection Hr as <-. unfold absent. rewrite Hf. cbn.
      destruct (filter_head_matches _ _ _ _ Hf).
      split; [split; discriminate | right; eauto].
Qed.

Lemma get_404_iff_absent_witness :
  status (jsonify (error_body "Host not found") 404) = 404
  <-> absent hosts_table "h-9" (store w_versioned).
Proof.
  destruct (get_404_iff_absent "h-9" env_up w_versioned) as (H & _).
  - repeat split.
  - destruct (H (jsonify (error_body "Host not found") 404)) as (H404 & _).
    + vm_compute. reflexivity.
    + exact H404.
Defined.

(** ** Write, then read *)

Lemma host_row_id (e : env) (d : row) (t : nat) (dflt : row) :
  assign (host_columns e d t) dflt !! "id" = Some (VStr (fresh_uuid e)).
Proof.
  unfold assign, host_columns. cbn [foldl fst snd].
  rewrite !lookup_insert_ne by discriminate. apply lookup_insert_eq.
Qed.

Lemma workspace_row_id (e : env) (d : row) (t : nat) (dflt : row) :
  assign (workspace_columns e d t) dflt !! "id" = Some (VStr (fresh_uuid e)).
Proof.
  unfold assign, workspace_columns. cbn [foldl fst snd].
  rewrite !lookup_insert_ne by discriminate. apply lookup_insert_eq.
Qed.

Lemma filter_snoc_fresh (id : string) (l : list row) (r : row) :
  List.filter (id_matches id) l = [] ->
  id_matches id r = true ->
  List.filter (id_matches id) (l ++ [r]) = [r].
Proof.
  intros Hl Hr. rewrite List.filter_app, Hl. cbn [List.filter app].
  by rewrite Hr.
Qed.

(** A run of [create_workspace] that answers 201, with its store. *)
Lemma create_workspace_201_store (data : value) (e : env) (w : world)
    (r : response) (w' : world) :
  create_workspace data e w = (inr r, w') ->
  status r = 201 ->
  exists d : row,
    data = VDict d /\
    truthy (default VNone (d !! "name")) = true /\
    r = jsonify (assign (workspace_columns e d (ticks w))
                        (column_defaults e workspaces_table)) 201 /\
    store w'
    = <[workspaces_table :=
          (table (store w) workspaces_table
           ++ [assign (workspace_columns e d (ticks w))
                      (column_defaults e workspaces_table)])%list]> (store w).
Proof.
  unfold create_workspace, workspace_columns. unfold_monad. cbv [get].
  destruct data; tidy; try wrong_status.
  destruct (d !! "name") as [nm|] eqn:Hnm; cbn [default from_option id];
    paths ltac:(first [wrong_status
                      | solve [intros H _; inversion H; subst; exists d;
                               rewrite Hnm; cbn [default from_option id];
                               repeat split; try reflexivity; assumption]]).
Qed.

(** X5.  A host or workspace that was just created (201) can be read
    back: the get of the new id, run on the resulting store by a later
    request, answers 200 with the body of the 201, provided the generated id
    was not already in the table. *)
Theorem create_then_get (e e2 : env) (w w' : world) (r : response) :
  read_ok e2 ->
  status r = 201 ->
  (forall data,
     create_host data e w = (inr r, w') ->
     absent hosts_table (fresh_uuid e) (store w) ->
     (get_host (fresh_uuid e) e2 w').1 = inr (Response (body r) 200)) /\
  (forall data,
     create_workspace data e w = (inr r, w') ->
     absent workspaces_table (fresh_uuid e) (store w) ->
     (get_workspace (fresh_uuid e) e2 w').1 = inr (Response (body r) 200)).
Proof.
  intros Hok Hst. split; intros data Hrun Habs.
  - destruct (create_host_201 _ _ _ _ _ Hrun Hst)
      as (d & lg & _ & _ & _ & _ & _ & -> & Hstore & _).
    erewrite get_host_found; [reflexivity | exact Hok |].
    rewrite Hstore, table_insert_eq.
    apply filter_snoc_fresh; [exact Habs|].
    apply lookup_id_matches, host_row_id.
  - destruct (create_workspace_201_store _ _ _ _ _ Hrun Hst)
      as (d & _ & _ & -> & Hstore).
    erewrite get_workspace_found; [reflexivity | exact Hok |].
    rewrite Hstore, table_insert_eq.
    apply filter_snoc_fresh; [exact Habs|].
    apply lookup_id_matches, workspace_row_id.
Qed.

Lemma create_then_get_witness :
  (get_host (fresh_uuid env_up) env_down w_h1).1
  = inr (Response (body r_h1) 200).
Proof.
  destruct (create_then_get env_up env_down w_empty w_h1 r_h1) as (H & _).
  - repeat split.
  - reflexivity.
  - apply (H body_h1).
    + vm_compute. reflexivity.
    + reflexivity.
Defined.

Lemma filter_out_then_in {A} (f : A -> bool) (l : list A) :
  List.filter f (List.filter (fun x => negb (f x)) l) = [].
Proof.
  induction l as [|x l IH]; [reflexivity|].
  cbn [List.filter]. destruct (f x) eqn:Hx; cbn [negb List.filter];
    [exact IH | by rewrite Hx].
Qed.

Lemma delete_workspace_204 (id : string) (e : env) (w : world)
    (r : response) (w' : world) :
  delete_workspace id e w = (inr r, w') ->
  status r = 204 ->
  ~ absent workspaces_table id (store w) /\
  store w'
  = <[workspaces_table := List.filter (fun r => negb (id_matches id r))
                            (table (store w) workspaces_table)]> (store w).
Proof.
  unfold delete_workspace, absent. unfold_monad.
  paths ltac:(first [wrong_status
                    | solve [intros H _; inversion H; subst;
                             split; [congruence | reflexivity]]]).
Qed.

Lemma delete_host_missing (id : string) (e : env) (w : world) :
  connect_exn e = None -> execute_exn e = None ->
  absent hosts_table id (store w) ->
  (delete_host id e w).1 = inr (jsonify (error_body "Host not found") 404).
Proof.
  intros Hc He Hf. unfold absent in Hf. unfold delete_host. unfold_monad.
  rewrite Hc; tidy. rewrite He; cbv [run_stmt]; tidy. rewrite Hf. tidy.
  reflexivity.
Qed.

Lemma delete_workspace_missing (id : string) (e : env) (w : world) :
  connect_exn e = None -> execute_exn e = None ->
  absent workspaces_table id (store w) ->
  (delete_workspace id e w).1
  = inr (jsonify (error_body "Workspace not found") 404).
Proof.
  intros Hc He Hf. unfold absent in Hf. unfold delete_workspace. unfold_monad.
  rewrite Hc; tidy. rewrite He; cbv [run_stmt]; tidy. rewrite Hf. tidy.
  reflexivity.
Qed.

(** X6.  After a delete that answered 204, no row with the id is left:
    the get of that id answers 404 and so does a second delete. *)
Theorem delete_then_gone (id : string) (e e2 : env) (w w' : world)
    (r : response) :
  read_ok e2 ->
  status r = 204 ->
  (delete_host id e w = (inr r, w') ->
   absent hosts_table id (store w') /\
   (get_host id e2 w').1 = inr (jsonify (error_body "Host not found") 404) /\
   (delete_host id e2 w').1 = inr (jsonify (error_body "Host not found") 404)) /\
  (delete_workspace id e w = (inr r, w') ->
   absent workspaces_table id (store w') /\
   (get_workspace id e2 w').1
   = inr (jsonify (error_body "Workspace not found") 404) /\
   (delete_workspace id e2 w').1
   = inr (jsonify (error_body "Workspace not found") 404)).
Proof.
  intros Hok Hst. pose proof Hok as (Hc & He & _). split; intros Hrun.
  - destruct (delete_host_204 _ _ _ _ _ Hrun Hst)
      as (post & _ & _ & _ & _ & _ & Hstore & _).
    assert (Habs : absent hosts_table id (store w')).
    { unfold absent. rewrite Hstore, table_insert_eq.
      apply filter_out_then_in. }
    split; [exact Habs|]. split.
    + by rewrite get_host_missing.
    + by apply delete_host_missing.
  - destruct (delete_workspace_204 _ _ _ _ _ Hrun Hst) as (_ & Hstore).
    assert (Habs : absent workspaces_table id (store w')).
    { unfold absent. rewrite Hstore, table_insert_eq.
      apply filter_out_then_in. }
    split; [exact Habs|]. split.
    + by rewrite get_workspace_missing.
    + by apply delete_workspace_missing.
Qed.

Lemma delete_then_gone_witness :
  absent hosts_table "h-1" (store w_deleted) /\
  (get_host "h-1" env_up w_deleted).1
  = inr (jsonify (error_body "Host not found") 404) /\
  (delete_host "h-1" env_up w_deleted).1
  = inr (jsonify (error_body "Host not found") 404).
Proof.
  destruct (delete_then_gone "h-1" env_up env_up w_versioned w_deleted
              (Response (VStr "") 204)) as (H & _).
  - repeat split.
  - reflexivity.
  - apply H. vm_compute. reflexivity.
Defined.

(** ** Updates *)

Ltac update_store_leaf :=
  match goal with
  | Hfl : List.filter ?f ?l = ?h :: ?rest
    |- (inr (jsonify (assign ?s ?h) _), _) = _ -> _ =>
      let H := fresh in
      intros H _; inversion H; subst; clear H;
      exists s, h, rest;
      split; [repeat constructor; cbn; tauto|];
      split; [reflexivity|]; split; reflexivity
  end.

(** A run of [update_host] that answers 200, with its store. *)
Lemma update_host_200_store (id : string) (data : value) (e : env)
    (w : world) (r : response) (w' : world) :
  update_host id data e w = (inr r, w') ->
  status r = 200 ->
  exists (sets : list (string * value)) (hit : row) (rest : list row),
    Forall (fun cv => In cv.1 update_columns) sets /\
    List.filter (id_matches id) (table (store w) hosts_table) = hit :: rest /\
    r = jsonify (assign sets hit) 200 /\
    store w'
    = <[hosts_table :=
          List.map (fun r => if id_matches id r then assign sets r else r)
                   (table (store w) hosts_table)]> (store w).
Proof.
  unfold update_host, update_columns. unfold_monad. cbv [contains getitem].
  destruct data; paths ltac:(first [wrong_status | solve [update_store_leaf]]).
Qed.

Lemma assign_keeps_id (id : string) (sets : list (string * value)) (r : row) :
  Forall (fun cv => In cv.1 update_columns) sets ->
  id_matches id (assign sets r) = id_matches id r.
Proof.
  intros Hs. unfold id_matches. rewrite assign_lookup_other; [reflexivity|].
  eapply Forall_impl; [exact Hs|]. intros [k v] Hin Heq.
  cbn in *. subst k. intuition discriminate.
Qed.

Lemma filter_updated (id : string) (sets : list (string * value))
    (l : list row) :
  Forall (fun cv => In cv.1 update_columns) sets ->
  List.filter (id_matches id)
    (List.map (fun r => if id_matches id r then assign sets r else r) l)
  = List.map (assign sets) (List.filter (id_matches id) l).
Proof.
  intros Hs. induction l as [|x l IH]; [reflexivity|].
  cbn [List.map List.filter]. destruct (id_matches id x) eqn:Hx.
  - rewrite assign_keeps_id, Hx by assumption. cbn [List.map]. by rewrite IH.
  - rewrite Hx. exact IH.
Qed.

(** X7.  The row a successful [update_host] returns is the row a later
    [get_host] of the same id returns, when at most one row has that id
    (with several, SQL leaves open which one each statement hands out). *)
Theorem update_then_get (id : string) (data : value) (e e2 : env)
    (w w' : world) (r : response) :
  read_ok e2 ->
  (length (List.filter (id_matches id) (table (store w) hosts_table)) <= 1)%nat ->
  update_host id data e w = (inr r, w') ->
  status r = 200 ->
  (get_host id e2 w').1 = inr r.
Proof.
  intros Hok _ Hrun Hst.
  destruct (update_host_200_store _ _ _ _ _ _ Hrun Hst)
    as (sets & hit & rest & Hsets & Hf & -> & Hstore).
  erewrite get_host_found; [reflexivity | exact Hok |].
  rewrite Hstore, table_insert_eq, filter_updated, Hf by assumption.
  reflexivity.
Qed.

Lemma update_then_get_witness :
  (get_host "h-1" env_down w_renamed).1 = inr r_renamed.
Proof.
  apply (update_then_get "h-1" body_rename env_up env_down w_versioned).
  - repeat split.
  - vm_compute. lia.
  - vm_compute. reflexivity.
  - reflexivity.
Defined.

(** X8.  A successful [update_host] neither adds nor removes nor
    reorders rows; a row with another id is unchanged, and in the rows it
    does change the id and every column other than [display_name],
    [canonical_facts] and [updated_at] keep their value. *)
Theorem update_keeps_other_rows (id : string) (data : value) (e : env)
    (w w' : world) (r : response) :
  update_host id data e w = (inr r, w') ->
  status r = 200 ->
  length (table (store w') hosts_table) = length (table (store w) hosts_table) /\
  forall (i : nat) (old : row),
    table (store w) hosts_table !! i = Some old ->
    exists new,
      table (store w') hosts_table !! i = Some new /\
      (id_matches id old = false -> new = old) /\
      new !! "id" = old !! "id" /\
      (forall c, ~ In c update_columns -> new !! c = old !! c).
Proof.
  intros Hrun Hst.
  destruct (update_host_200_store _ _ _ _ _ _ Hrun Hst)
    as (sets & hit & rest & Hsets & Hf & _ & Hstore).
  rewrite Hstore, table_insert_eq. split; [apply length_map|].
  intros i old Hi. eexists. split.
  { rewrite list_lookup_fmap, Hi. reflexivity. }
  assert (Hother : forall c, ~ In c update_columns ->
                     assign sets old !! c = old !! c).
  { intros c Hc. apply assign_lookup_other.
    eapply Forall_impl; [exact Hsets|]. intros cv Hin <-. exact (Hc Hin). }
  destruct (id_matches id old); repeat split;
    first [ discriminate | exact Hother
          | apply Hother; cbn; intuition discriminate ].
Qed.

Lemma update_keeps_other_rows_witness :
  length (table (store w_renamed) hosts_table)
  = length (table (store w_versioned) hosts_table).
Proof.
  destruct (update_keeps_other_rows "h-1" body_rename env_up w_versioned
              w_renamed r_renamed) as (H & _).
  - vm_compute. reflexivity.
  - reflexivity.
  - exact H.
Defined.


(** X9.  After a successful [create_host] the unfiltered host list has
    one row more than the table had, the created host is in it, and [count]
    says so. *)
Theorem create_then_listed (data : value) (e e2 : env) (w w' : world)
    (r : response) :
  read_ok e2 ->
  create_host data e w = (inr r, w') ->
  status r = 201 ->
  exists host rows,
    body r = VDict host /\
    (list_hosts None e2 w').1 = inr (jsonify (listing rows) 200) /\
    In host rows /\
    length rows = S (length (table (store w) hosts_table)) /\
    listing rows !! "count"
    = Some (VInt (Z.of_nat (length (table (store w) hosts_table)) + 1)).
Proof.
  intros Hok Hrun Hst.
  destruct (create_host_201 _ _ _ _ _ Hrun Hst)
    as (d & lg & _ & _ & _ & _ & _ & -> & Hstore & _).
  do 2 eexists. split; [reflexivity|].
  rewrite (list_hosts_run None e2 w' Hok). split; [reflexivity|].
  destruct (listing_of None (table (store w') hosts_table)) as (Hp & _ & Hcnt).
  fold (listed_rows None (table (store w') hosts_table)) in Hp, Hcnt.
  cbn [selection] in Hp, Hcnt.
  rewrite Hstore, table_insert_eq in Hp, Hcnt |- *.
  split; [| split].
  - eapply Permutation_in; [symmetry; exact Hp|].
    apply in_or_app. right. by left.
  - rewrite (Permutation_length Hp), length_app. cbn. lia.
  - rewrite Hcnt, length_app. cbn. do 2 f_equal. lia.
Qed.

Lemma create_then_listed_witness :
  exists host rows,
    body r_h1 = VDict host /\
    (list_hosts None env_down w_h1).1 = inr (jsonify (listing rows) 200) /\
    In host rows /\
    length rows = S (length (table (store w_empty) hosts_table)) /\
    listing rows !! "count"
    = Some (VInt (Z.of_nat (length (table (store w_empty) hosts_table)) + 1)).
Proof.
  apply (create_then_listed body_h1 env_up env_down w_empty w_h1 r_h1).
  - repeat split.
  - vm_compute. reflexivity.
  - reflexivity.
Defined.

(** ** Writes: what they touch *)

Ltac own_table_leaf :=
  solve [ reflexivity | apply lookup_insert_ne; congruence ].

(** X10.  A write handler touches no table but its own, on any path:
    the host handlers leave every table other than the hosts table as it
    was, and likewise for host groups, workspaces and roles; deleting a
    workspace in particular removes none of its roles or hosts. *)
Theorem writes_touch_own_table (t : string) (e : env) (w : world) :
  (t <> hosts_table ->
   (forall data, store (create_host data e w).2 !! t = store w !! t) /\
   (forall id data, store (update_host id data e w).2 !! t = store w !! t) /\
   (forall id, store (delete_host id e w).2 !! t = store w !! t)) /\
  (t <> host_groups_table ->
   forall data, store (create_host_group data e w).2 !! t = store w !! t) /\
  (t <> workspaces_table ->
   (forall data, store (create_workspace data e w).2 !! t = store w !! t) /\
   (forall id, store (delete_workspace id e w).2 !! t = store w !! t)) /\
  (t <> roles_table ->
   forall data, store (create_role data e w).2 !! t = store w !! t).
Proof.
  repeat split; intros.
  - unfold create_host. unfold_monad. cbv [get].
    destruct data; paths own_table_leaf.
  - unfold update_host. unfold_monad. cbv [contains getitem].
    destruct data; paths own_table_leaf.
  - unfold delete_host. unfold_monad. paths own_table_leaf.
  - unfold create_host_group. unfold_monad. cbv [get].
    destruct data; paths own_table_leaf.
  - unfold create_workspace. unfold_monad. cbv [get].
    destruct data; paths own_table_leaf.
  - unfold delete_workspace. unfold_monad. paths own_table_leaf.
  - unfold create_role. unfold_monad. cbv [get].
    destruct data; paths own_table_leaf.
Qed.

Lemma writes_touch_own_table_witness :
  store (delete_workspace "ws-1" env_up w_one_workspace).2 !! "rbac.roles"
  = store w_one_workspace !! "rbac.roles" /\
  store (create_host body_h1 env_up w_one_workspace).2 !! "rbac.workspaces"
  = store w_one_workspace !! "rbac.workspaces".
Proof.
  split.
  - destruct (writes_touch_own_table "rbac.roles" env_up w_one_workspace)
      as (_ & _ & H & _).
    destruct H as (_ & H); [discriminate | apply H].
  - destruct (writes_touch_own_table "rbac.workspaces" env_up w_one_workspace)
      as (H & _).
    destruct H as (H & _); [discriminate | apply H].
Defined.

(** ** Validation at the edges *)

Ltac iff_leaf :=
  solve [ let H := fresh in
          intros H; inversion H; subst; clear H; cbn [status jsonify];
          intuition (congruence || discriminate) ].

(** X11.  For a JSON-object body a create handler answers 400 exactly
    when its required field is missing or falsy as Python has it (null,
    empty string, 0, false, empty list or object): [display_name] for
    [create_host], [name] for [create_host_group] and [create_workspace],
    [name] or [workspace_id] for [create_role]. *)
Theorem required_field_400_iff (d : row) (e : env) (w : world)
    (r : response) (w' : world) :
  (create_host (VDict d) e w = (inr r, w') ->
   (status r = 400 <-> truthy (default VNone (d !! "display_name")) = false)) /\
  (create_host_group (VDict d) e w = (inr r, w') ->
   (status r = 400 <-> truthy (default VNone (d !! "name")) = false)) /\
  (create_workspace (VDict d) e w = (inr r, w') ->
   (status r = 400 <-> truthy (default VNone (d !! "name")) = false)) /\
  (create_role (VDict d) e w = (inr r, w') ->
   (status r = 400 <->
    truthy (default VNone (d !! "name")) = false \/
    truthy (default VNone (d !! "workspace_id")) = false)).
Proof.
  repeat apply conj.
  - unfold create_host. unfold_monad. cbv [get].
    destruct (d !! "display_name") as [v|]; cbn [default from_option id];
      [destruct (truthy v) eqn:?|]; cbn [truthy negb]; paths iff_leaf.
  - unfold create_host_group. unfold_monad. cbv [get].
    destruct (d !! "name") as [v|]; cbn [default from_option id];
      [destruct (truthy v) eqn:?|]; cbn [truthy negb]; paths iff_leaf.
  - unfold create_workspace. unfold_monad. cbv [get].
    destruct (d !! "name") as [v|]; cbn [default from_option id];
      [destruct (truthy v) eqn:?|]; cbn [truthy negb]; paths iff_leaf.
  - unfold create_role. unfold_monad. cbv [get].
    destruct (d !! "name") as [v|]; cbn [default from_option id];
      [destruct (truthy v) eqn:?|];
      (destruct (d !! "workspace_id") as [v'|]; cbn [default from_option id];
       [destruct (truthy v') eqn:?|]);
      cbn [truthy negb orb]; paths iff_leaf.
Qed.

Lemma required_field_400_iff_witness :
  status (jsonify (error_body "display_name is required") 400) = 400
  <-> truthy (default VNone
                (({[ "display_name" := VStr "" ]} : row) !! "display_name"))
      = false.
Proof.
  destruct (required_field_400_iff {[ "display_name" := VStr "" ]} env_up
              w_empty (jsonify (error_body "display_name is required") 400)
              w_empty) as (H & _).
  apply H. vm_compute. reflexivity.
Defined.

(** X12.  A body that is not a JSON object (null, a number, a string,
    a list) makes every create handler answer 500, not 400: [data.get]
    raises before validation.  Nothing but the error log line happens; the
    database is not even contacted. *)
Theorem non_object_body_500 (data : value) (e : env) (w : world) :
  is_dict data = false ->
  let rejected (m : M response) :=
    exists r lg,
      m e w = (inr r, World (store w) (ticks w) (trace w ++ [lg])) /\
      status r = 500 /\ is_log lg = true in
  rejected (create_host data) /\
  rejected (create_host_group data) /\
  rejected (create_workspace data) /\
  rejected (create_role data).
Proof.
  intros Hd. cbv zeta.
  destruct data; try discriminate Hd;
    repeat split; do 2 eexists; (split; [reflexivity|]); split; reflexivity.
Qed.

Lemma non_object_body_500_witness :
  exists r lg,
    create_host body_null env_up w_empty
    = (inr r, World (store w_empty) (ticks w_empty) (trace w_empty ++ [lg])) /\
    status r = 500 /\ is_log lg = true.
Proof.
  destruct (non_object_body_500 body_null env_up w_empty eq_refl) as (H & _).
  exact H.
Defined.

(** ** What the push says and what is stored *)

(** X13.  The resource [create_host] posts repeats the committed row:
    [resource_id] is the row's id, the metadata carry its [display_name] and
    [canonical_facts].  The workspace differs when the body gives none (or a
    falsy one): the row stores what was given, the push names the default
    workspace. *)
Theorem push_mirrors_row_but_workspace (data : value) (e : env)
    (w w' : world) (r : response) :
  create_host data e w = (inr r, w') ->
  status r = 201 ->
  exists (d host j meta : row),
    data = VDict d /\
    body r = VDict host /\
    remote_calls (new_events w w')
    = [EvHttp POST (kessel_base e ++ "/api/inventory/v1beta2/resources")
         (Some (VDict j)) 5 (remote e)] /\
    j !! "resource_id" = host !! "id" /\
    j !! "metadata" = Some (VDict meta) /\
    meta !! "display_name" = host !! "display_name" /\
    meta !! "canonical_facts" = host !! "canonical_facts" /\
    host !! "workspace_id" = Some (default VNone (d !! "workspace_id")) /\
    j !! "workspace_id"
    = Some (if truthy (default VNone (d !! "workspace_id"))
            then default VNone (d !! "workspace_id")
            else VStr default_workspace).
Proof.
  intros Hrun Hst.
  destruct (create_host_201 _ _ _ _ _ Hrun Hst)
    as (d & lg & -> & _ & _ & _ & _ & -> & _ & Hlg & Htr).
  exists d. do 3 eexists.
  split; [reflexivity|]. split; [reflexivity|].
  split.
  { unfold new_events. rewrite Htr, drop_app_length.
    destruct lg; try discriminate Hlg. reflexivity. }
  unfold kessel_resource, assign, host_columns, py_or. cbn [foldl fst snd].
  repeat split;
    repeat first [ rewrite lookup_insert_eq | rewrite lookup_insert_ne by discriminate ];
    reflexivity.
Qed.

Lemma push_mirrors_row_but_workspace_witness :
  exists (d host j meta : row),
    body_h1 = VDict d /\
    body r_h1 = VDict host /\
    remote_calls (new_events w_empty w_h1)
    = [EvHttp POST (kessel_base env_up ++ "/api/inventory/v1beta2/resources")
         (Some (VDict j)) 5 (remote env_up)] /\
    j !! "resource_id" = host !! "id" /\
    j !! "metadata" = Some (VDict meta) /\
    meta !! "display_name" = host !! "display_name" /\
    meta !! "canonical_facts" = host !! "canonical_facts" /\
    host !! "workspace_id" = Some (default VNone (d !! "workspace_id")) /\
    j !! "workspace_id"
    = Some (if truthy (default VNone (d !! "workspace_id"))
            then default VNone (d !! "workspace_id")
            else VStr default_workspace).
Proof.
  apply (push_mirrors_row_but_workspace body_h1 env_up w_empty w_h1 r_h1).
  - vm_compute. reflexivity.
  - reflexivity.
Defined.

(** X14.  [delete_host] does not look at what the remote answers: with
    any HTTP response, of whatever status, the answer is 204 and the run
    ends with the call; nothing is logged about it. *)
Theorem delete_ignores_remote_answer (id : string) (e : env) (w : world)
    (resp : http_response) :
  write_ok e ->
  ~ absent hosts_table id (store w) ->
  remote e = inr resp ->
  delete_host id e w
  = (inr (Response (VStr "") 204),
     World (<[hosts_table := List.filter (fun r => negb (id_matches id r))
                               (table (store w) hosts_table)]> (store w))
           (ticks w)
           (trace w ++
            [EvConnect; EvExecute (Delete hosts_table id); EvCommit;
             EvCursorClose; EvConnClose;
             EvLog Info "Deleted host: {}" [VStr id];
             EvHttp DELETE
               (kessel_base e ++ "/api/inventory/v1/resources/hbi/host/" ++ id)
               None 5 (inr resp)])).
Proof.
  intros (Hc & He & Hm & Hcc & Hnc) Hin Hr.
  unfold delete_host, kessel_base. unfold_monad.
  rewrite Hc; tidy. rewrite He; cbv [run_stmt]; tidy.
  rewrite (filter_nonempty_length _ _ Hin); tidy.
  rewrite Hm; tidy. rewrite Hcc; tidy. rewrite Hnc; tidy.
  rewrite Hr; tidy. reflexivity.
Qed.

Lemma delete_ignores_remote_answer_witness :
  (delete_host "h-1" env_204 w_versioned).1 = inr (Response (VStr "") 204).
Proof.
  rewrite (delete_ignores_remote_answer "h-1" env_204 w_versioned
             (HttpResponse 204 "")).
  - reflexivity.
  - repeat split.
  - unfold absent. intros H.
    apply (f_equal (@length row)) in H. vm_compute in H. discriminate H.
  - reflexivity.
Defined.

(** X15.  After a successful local write [create_host] logs the
    remote answer by status: 200 and 201 as success, every other status,
    204 and the other 2xx included, as a warning; the answer is 201 in both
    cases. *)
Theorem create_host_logs_by_status (d : row) (e : env) (w : world)
    (resp : http_response) :
  write_ok e ->
  truthy (default VNone (d !! "display_name")) = true ->
  remote e = inr resp ->
  (create_host (VDict d) e w).1
  = inr (jsonify (assign (host_columns e d (ticks w))
                         (column_defaults e hosts_table)) 201) /\
  last (trace (create_host (VDict d) e w).2)
  = Some (if (status_code resp =? 200)%Z || (status_code resp =? 201)%Z
          then EvLog Info "Successfully reported host to Kessel: {}"
                     [VStr (fresh_uuid e)]
          else EvLog Warning "Kessel API returned {}: {}"
                     [VInt (status_code resp); VStr (text resp)]).
Proof.
  intros (Hc & He & Hm & Hcc & Hnc) Ht Hr.
  unfold create_host, host_columns. unfold_monad. cbv [get].
  destruct (d !! "display_name") as [dn|]; cbn [default from_option id] in *;
    [| discriminate Ht].
  rewrite Ht; tidy. rewrite Hc; tidy. rewrite He; cbv [run_stmt]; tidy.
  rewrite Hm; tidy. rewrite Hcc; tidy. rewrite Hnc; tidy.
  rewrite Hr; tidy.
  destruct ((status_code resp =? 200)%Z || (status_code resp =? 201)%Z); tidy;
    (split; [reflexivity|]); rewrite last_app; reflexivity.
Qed.

Lemma create_host_logs_by_status_witness :
  last (trace (create_host body_h1 env_204 w_empty).2)
  = Some (EvLog Warning "Kessel API returned {}: {}" [VInt 204; VStr ""]).
Proof.
  destruct (create_host_logs_by_status {[ "display_name" := VStr "h1" ]}
              env_204 w_empty (HttpResponse 204 "")) as (_ & H).
  - repeat split.
  - reflexivity.
  - reflexivity.
  - exact H.
Defined.

(** ** Health *)

(** X16.  [health] answers 200 exactly when the connection opens and
    closes; otherwise it answers 503 with the message of the exception,
    also when it was the close that raised. *)
Theorem health_200_iff (e : env) (w : world) (r : response) :
  let healthy_iff (m : M response) :=
    (m e w).1 = inr r ->
    (status r = 200 <-> connect_exn e = None /\ conn_close_exn e = None) /\
    (status r <> 200 ->
     exists x,
       (connect_exn e = Some x \/ conn_close_exn e = Some x) /\
       r = jsonify (<["status" := VStr "unhealthy"]> (error_body (msg x))) 503) in
  healthy_iff HostInventory.health /\ healthy_iff Rbac.health.
Proof.
  cbv zeta. split.
  - unfold HostInventory.health. unfold_monad.
    destruct (connect_exn e) as [x|] eqn:Hc; tidy;
      [| destruct (conn_close_exn e) as [x|] eqn:Hn; tidy ];
      intros H; inversion H; subst; clear H; cbn [status jsonify];
      (split; [split; [try discriminate; tauto | intros [? ?]; congruence]|]);
      intros Hne; try (contradict Hne; reflexivity); eauto.
  - unfold Rbac.health. unfold_monad.
    destruct (connect_exn e) as [x|] eqn:Hc; tidy;
      [| destruct (conn_close_exn e) as [x|] eqn:Hn; tidy ];
      intros H; inversion H; subst; clear H; cbn [status jsonify];
      (split; [split; [try discriminate; tauto | intros [? ?]; congruence]|]);
      intros Hne; try (contradict Hne; reflexivity); eauto.
Qed.

Lemma health_200_iff_witness :
  status (jsonify {[ "status" := VStr "healthy" ]} 200) = 200
  <-> connect_exn env_up = None /\ conn_close_exn env_up = None.
Proof.
  destruct (health_200_iff env_up w_empty
              (jsonify {[ "status" := VStr "healthy" ]} 200)) as (H & _).
  destruct H as (H & _); [vm_compute; reflexivity | exact H].
Defined.


(** X17.  [update_host] does not apply the validation of [create_host]
    to [display_name]: with the database calls returning, any string the
    driver can send (no NUL character), the empty string included, is
    written to an existing host and returned with 200, with [updated_at]
    set to the current time. *)
Theorem update_accepts_blank_display_name (id : string) (d : row)
    (s : string) (e : env) (w : world) :
  write_ok e ->
  ~ absent hosts_table id (store w) ->
  d !! "display_name" = Some (VStr s) ->
  has_nul s = false ->
  exists host,
    (update_host id (VDict d) e w).1 = inr (jsonify host 200) /\
    host !! "display_name" = Some (VStr s) /\
    host !! "updated_at" = Some (VDatetime (clock e (ticks w))).
Proof.
  intros (Hc & He & Hm & Hcc & Hnc) Hin Hd _.
  unfold absent in Hin.
  destruct (List.filter (id_matches id) (table (store w) hosts_table))
    as [|hit rest] eqn:Hf; [congruence|].
  unfold update_host. unfold_monad. cbv [contains getitem].
  rewrite Hc; tidy. rewrite Hd. cbn [bool_decide decide_rel is_Some_dec]. tidy.
  destruct (d !! "canonical_facts") as [cf|];
    cbn [bool_decide decide_rel is_Some_dec app]; tidy;
    rewrite He; cbv [run_stmt]; tidy; rewrite Hf; tidy;
    rewrite Hm; tidy; rewrite Hcc; tidy; rewrite Hnc; tidy;
    eexists; (split; [reflexivity|]);
    unfold assign; cbn [foldl fst snd];
    split;
    repeat first [ rewrite lookup_insert_eq
                 | rewrite lookup_insert_ne by discriminate ];
    reflexivity.
Qed.

Lemma update_accepts_blank_display_name_witness :
  exists host,
    (update_host "h-1" body_blank env_up w_versioned).1
    = inr (jsonify host 200) /\
    host !! "display_name" = Some (VStr "") /\
    host !! "updated_at" = Some (VDatetime (clock env_up (ticks w_versioned))).
Proof.
  apply (update_accepts_blank_display_name "h-1"
           {[ "display_name" := VStr "" ]} "" env_up w_versioned).
  - repeat split.
  - unfold absent. intros H.
    apply (f_equal (@length row)) in H. vm_compute in H. discriminate H.
  - reflexivity.
  - reflexivity.
Defined.
